(** * pyqt5lsa: the desktop shell of the structural-analysis program

    A shallow embedding of [src/pyqt5lsa.py] (class [MainWindow] and its
    handlers) together with the properties of the shell that the
    specification states.

    Conventions of the embedding.
    - A Python [str] is a [string]; a character is a code point below 256.
    - The file system is the text that reading each path yields; a path
      that cannot be read as text has none.
    - The window object [self], the file system, the dialogs shown to the
      user and the calls made on the database object form one [World]
      that every handler threads; a handler either returns or raises.
    - What the shell is run with and does not define (the XML parser
      [xml.etree.ElementTree], the rendering of text by [QTextEdit], the
      failures of the operating system, and the class
      [StructuralDatabase]) is a class [Environment]. *)

From Stdlib Require Import String Ascii List Bool Arith Lia.
From stdpp Require Import base strings gmap.
Import ListNotations.

Set Warnings "-register-all".

Local Open Scope string_scope.
Local Open Scope list_scope.

(** ** Python strings *)

Module Py.

(** The line-feed character, ['\n']. *)
Definition LF : ascii := ascii_of_nat 10.

(** [s.index(c)] for a one-character [c]: the position of the first
    occurrence, [None] where Python raises [ValueError]. *)
Fixpoint index (c : ascii) (s : string) : option nat :=
  match s with
  | EmptyString => None
  | String a rest =>
      if Ascii.eqb a c then Some 0 else option_map S (index c rest)
  end.

(** [s[:n]]. *)
Definition slice_to (n : nat) (s : string) : string := substring 0 n s.

(** [c.isspace()] on code points below 256. *)
Definition isspace (c : ascii) : bool :=
  let n := nat_of_ascii c in
  ((9 <=? n)%nat && (n <=? 13)%nat) || ((28 <=? n)%nat && (n <=? 32)%nat)
  || (n =? 133)%nat || (n =? 160)%nat.

(** [s.lstrip()]. *)
Fixpoint lstrip (s : string) : string :=
  match s with
  | EmptyString => EmptyString
  | String a rest => if isspace a then lstrip rest else s
  end.

(** [s.rstrip()]. *)
Fixpoint rstrip (s : string) : string :=
  match s with
  | EmptyString => EmptyString
  | String a rest =>
      match rstrip rest with
      | EmptyString => if isspace a then EmptyString else String a EmptyString
      | r => String a r
      end
  end.

(** [s.strip()]. *)
Definition strip (s : string) : string := rstrip (lstrip s).

(** [s.split(sep)] for a one-character [sep]. *)
Fixpoint split (sep : ascii) (s : string) : list string :=
  match s with
  | EmptyString => [EmptyString]
  | String a rest =>
      if Ascii.eqb a sep then EmptyString :: split sep rest
      else match split sep rest with
           | [] => [String a EmptyString]
           | h :: t => String a h :: t
           end
  end.

(** Truthiness of a string: [bool(s)]. *)
Definition truthy (s : string) : bool :=
  match s with EmptyString => false | _ => true end.

End Py.


(** ** Exceptions, dialogs and results *)

(** The Python exceptions the shell meets.  [ParseError] is
    [xml.etree.ElementTree.ParseError], [OSError] what [open] raises,
    [ValueError] what [str.index] raises; an exception raised inside a
    collaborator is carried as [OtherError]. *)
Inductive Exn : Type :=
| ParseError (msg : string)
| OSError (msg : string)
| ValueError (msg : string)
| OtherError (msg : string).

(** [str(e)]. *)
Definition str (e : Exn) : string :=
  match e with
  | ParseError m | OSError m | ValueError m | OtherError m => m
  end.

(** A modal [QMessageBox] shown to the user: its kind, title and text. *)
Inductive Dialog : Type :=
| critical (title text : string)
| information (title text : string)
| warning (title text : string).

(** The way a Python call ends. *)
Inductive Result (A : Type) : Type :=
| Returned (a : A)
| Raised (e : Exn).
Arguments Returned {A} a.
Arguments Raised {A} e.

(** ** XML elements and the tree model *)

(** An [xml.etree.ElementTree.Element]: its tag, its text ([None] when
    absent) and its children in document order. *)
Inductive Element : Type :=
| Elem (tag : string) (text : option string) (children : list Element).

(** What [ET.fromstring] does with a document: it returns the root
    element, raises [ET.ParseError] with a message, or raises another
    exception (a [UnicodeEncodeError] on a lone surrogate, for one). *)
Inductive Parse : Type :=
| Parsed (root : Element)
| NotWellFormed (msg : string)
| Fails (e : Exn).

(** What [open(path, 'w')] followed by [write(text)] and the closing of
    the file does: the file holds the text; or the open is refused and
    the file is as it was; or the open truncates the file and the write
    or the close then fails, the file holding what was written so far. *)
Inductive WriteOutcome : Type :=
| Written
| Refused (e : Exn)
| Broken (remains : string) (e : Exn).

(** A [QStandardItem] with the rows appended to it. *)
Inductive Item : Type :=
| MkItem (label : string) (rows : list Item).

(** The [QStandardItemModel] of the tree view: the header labels and the
    rows of the invisible root item. *)
Record TreeModel : Type := MkTreeModel {
  header_labels : list string;
  root_rows : list Item
}.

(** The rows that [insert_tree_items] appends to [node] for the text of
    an element: one per line of the stripped text, none when the text is
    absent or blank. *)
Definition text_rows (text : option string) : list Item :=
  match text with
  | None => []
  | Some t =>
      if Py.truthy t && Py.truthy (Py.strip t)
      then map (fun line => MkItem line []) (Py.split Py.LF (Py.strip t))
      else []
  end.

(** The [node] that one call of [insert_tree_items] builds for [element]:
    the tag, then the text rows, then the nodes of the children. *)
Fixpoint node_of (element : Element) : Item :=
  match element with
  | Elem tag text children =>
      MkItem tag (text_rows text ++ map node_of children)
  end.

(** [insert_tree_items(parent, element)], on the rows of [parent]. *)
Definition insert_tree_items (parent_rows : list Item) (element : Element)
  : list Item :=
  parent_rows ++ [node_of element].


(** ** The window, its collaborators and the world a handler runs in *)

(** The six items that [MainWindow.__init__] installs in
    [analysis_type_combo], in order. *)
Definition analysis_items : list string :=
  [ "Static Linear Analysis";
    "Static Nonlinear Analysis";
    "Dynamic Linear Analysis";
    "Dynamic Nonlinear Analysis";
    "Frequency Domain Analysis";
    "Buckling Analysis" ].

(** The calls the shell makes on the [StructuralDatabase] object. *)
Inductive DbCall : Type :=
| call_xml_reader (filename : string)
| call_run_analysis (log_file : string)
| call_plot_wire3d.

(** The [StructuralDatabase] object [self.db]: the loaded model and the
    attribute [results_file] that [open_file] assigns. *)
Record DB (Model : Type) : Type := MkDB {
  model : Model;
  results_file : string
}.
Arguments MkDB {Model} model results_file.
Arguments model {Model} d.
Arguments results_file {Model} d.

(** What the analysis pipeline of the database computes from a loaded
    model: the log and the report of a run that succeeds, the log and the
    exception of one that fails; in both cases the database it leaves. *)
Inductive EngineResult (Model : Type) : Type :=
| EngineSuccess (db' : DB Model) (log report : string)
| EngineFailure (db' : DB Model) (log : string) (e : Exn).
Arguments EngineSuccess {Model} db' log report.
Arguments EngineFailure {Model} db' log e.

(** What a run invocation of the analysis returns. *)
Inductive RunResult : Type :=
| RunSucceeded
| RunFailed (e : Exn).

(** What the shell is run with and does not define itself.
    - [Model]: the structural model that a [StructuralDatabase] holds.
    - [fromstring]: [xml.etree.ElementTree.fromstring], on a string.
    - [ET_parse]: [xml.etree.ElementTree.parse(path).getroot()], which
      reads the bytes of the file itself and honours the encoding that
      the document declares; given the files on disk.
    - [plain_text]: the plain text ([toPlainText()]) of the document
      that [QTextEdit.setText] builds from a string; [setText] takes a
      string that looks like rich text as HTML, and the plain text has a
      space for each no-break space.
    - [open_error]: the exception that [open(path, 'r')] or the [read]
      after it raises at a path that yields no text (no such file, no
      permission, bytes that do not decode).
    - [os_write]: what writing a text to a path does.
    - [xml_reader]: [StructuralDatabase.xml_reader(filename)], given the
      files on disk: the database it leaves and the exception it raises,
      if any.
    - [engine]: the stages of the analysis run (assembly, reduction,
      solve, force recovery, report text) inside
      [StructuralDatabase.run_analysis].
    - [plot_wire3d]: [StructuralDatabase.plot_wire3d(is_3d=True)], the
      exception it raises, if any. *)
Class Environment : Type := {
  Model : Type;
  fromstring : string -> Parse;
  ET_parse : gmap string string -> string -> Result Element;
  plain_text : string -> string;
  open_error : string -> Exn;
  os_write : string -> string -> WriteOutcome;
  xml_reader : gmap string string -> string -> DB Model -> DB Model * option Exn;
  engine : DB Model -> EngineResult Model;
  plot_wire3d : DB Model -> option Exn
}.

Section Shell.

Context `{Environment}.

(** The attributes of [MainWindow] that the handlers read or write.
    [save_button] is the enabled flag of the Save button,
    [analysis_type_combo] the current index of the combo box, [xml_text],
    [analysis_text] and [log_text] the plain texts ([toPlainText()]) of
    the three [QTextEdit]s,
    [xml_text_modified] the modified flag of the document of [xml_text]. *)
Record MainWindow : Type := MkMainWindow {
  db : DB Model;
  current_file : string;
  is_modified : bool;
  save_button : bool;
  analysis_type_combo : nat;
  tree_model : TreeModel;
  xml_text : string;
  xml_text_modified : bool;
  analysis_text : string;
  log_text : string
}.

(** What a handler runs in: the window, the text files on disk by path,
    the dialogs shown so far (oldest first) and the calls made on the
    database so far (oldest first). *)
Record World : Type := MkWorld {
  self : MainWindow;
  fs : gmap string string;
  shown : list Dialog;
  db_calls : list DbCall
}.

(** The window as [MainWindow.__init__] leaves it. *)
Definition init (db0 : DB Model) : MainWindow :=
  {| db := db0;
     current_file := "";
     is_modified := false;
     save_button := false;
     analysis_type_combo := 0;
     tree_model := MkTreeModel ["XML Structure"] [];
     xml_text := "";
     xml_text_modified := false;
     analysis_text := "";
     log_text := "" |}.

(** *** Field updates *)

Definition with_self (f : MainWindow -> MainWindow) (w : World) : World :=
  {| self := f (self w); fs := fs w; shown := shown w; db_calls := db_calls w |}.

Definition with_fs (f : gmap string string -> gmap string string) (w : World)
  : World :=
  {| self := self w; fs := f (fs w); shown := shown w; db_calls := db_calls w |}.

Definition show (d : Dialog) (w : World) : World :=
  {| self := self w; fs := fs w; shown := shown w ++ [d]; db_calls := db_calls w |}.

Definition record_call (c : DbCall) (w : World) : World :=
  {| self := self w; fs := fs w; shown := shown w; db_calls := db_calls w ++ [c] |}.

Definition set_db (v : DB Model) (m : MainWindow) : MainWindow :=
  {| db := v; current_file := current_file m; is_modified := is_modified m;
     save_button := save_button m; analysis_type_combo := analysis_type_combo m;
     tree_model := tree_model m; xml_text := xml_text m;
     xml_text_modified := xml_text_modified m;
     analysis_text := analysis_text m; log_text := log_text m |}.

Definition set_current_file (v : string) (m : MainWindow) : MainWindow :=
  {| db := db m; current_file := v; is_modified := is_modified m;
     save_button := save_button m; analysis_type_combo := analysis_type_combo m;
     tree_model := tree_model m; xml_text := xml_text m;
     xml_text_modified := xml_text_modified m;
     analysis_text := analysis_text m; log_text := log_text m |}.

Definition set_is_modified (v : bool) (m : MainWindow) : MainWindow :=
  {| db := db m; current_file := current_file m; is_modified := v;
     save_button := save_button m; analysis_type_combo := analysis_type_combo m;
     tree_model := tree_model m; xml_text := xml_text m;
     xml_text_modified := xml_text_modified m;
     analysis_text := analysis_text m; log_text := log_text m |}.

Definition set_save_button (v : bool) (m : MainWindow) : MainWindow :=
  {| db := db m; current_file := current_file m; is_modified := is_modified m;
     save_button := v; analysis_type_combo := analysis_type_combo m;
     tree_model := tree_model m; xml_text := xml_text m;
     xml_text_modified := xml_text_modified m;
     analysis_text := analysis_text m; log_text := log_text m |}.

Definition set_analysis_type_combo (v : nat) (m : MainWindow) : MainWindow :=
  {| db := db m; current_file := current_file m; is_modified := is_modified m;
     save_button := save_button m; analysis_type_combo := v;
     tree_model := tree_model m; xml_text := xml_text m;
     xml_text_modified := xml_text_modified m;
     analysis_text := analysis_text m; log_text := log_text m |}.

Definition set_tree_model (v : TreeModel) (m : MainWindow) : MainWindow :=
  {| db := db m; current_file := current_file m; is_modified := is_modified m;
     save_button := save_button m; analysis_type_combo := analysis_type_combo m;
     tree_model := v; xml_text := xml_text m;
     xml_text_modified := xml_text_modified m;
     analysis_text := analysis_text m; log_text := log_text m |}.

Definition set_xml_text (v : string) (m : MainWindow) : MainWindow :=
  {| db := db m; current_file := current_file m; is_modified := is_modified m;
     save_button := save_button m; analysis_type_combo := analysis_type_combo m;
     tree_model := tree_model m; xml_text := v;
     xml_text_modified := xml_text_modified m;
     analysis_text := analysis_text m; log_text := log_text m |}.

Definition set_xml_text_modified (v : bool) (m : MainWindow) : MainWindow :=
  {| db := db m; current_file := current_file m; is_modified := is_modified m;
     save_button := save_button m; analysis_type_combo := analysis_type_combo m;
     tree_model := tree_model m; xml_text := xml_text m;
     xml_text_modified := v;
     analysis_text := analysis_text m; log_text := log_text m |}.

Definition set_analysis_text (v : string) (m : MainWindow) : MainWindow :=
  {| db := db m; current_file := current_file m; is_modified := is_modified m;
     save_button := save_button m; analysis_type_combo := analysis_type_combo m;
     tree_model := tree_model m; xml_text := xml_text m;
     xml_text_modified := xml_text_modified m;
     analysis_text := v; log_text := log_text m |}.

Definition set_log_text (v : string) (m : MainWindow) : MainWindow :=
  {| db := db m; current_file := current_file m; is_modified := is_modified m;
     save_button := save_button m; analysis_type_combo := analysis_type_combo m;
     tree_model := tree_model m; xml_text := xml_text m;
     xml_text_modified := xml_text_modified m;
     analysis_text := analysis_text m; log_text := v |}.

Definition set_results_file (v : string) (d : DB Model) : DB Model :=
  {| model := model d; results_file := v |}.

(** *** Handlers as computations on the world *)

(** A Python call: it runs in a world, returns or raises, and leaves a
    world. *)
Definition M (A : Type) : Type := World -> Result A * World.

Definition ret {A : Type} (a : A) : M A := fun w => (Returned a, w).

Definition raise {A : Type} (e : Exn) : M A := fun w => (Raised e, w).

Definition bind {A B : Type} (m : M A) (k : A -> M B) : M B :=
  fun w =>
    match m w with
    | (Returned a, w') => k a w'
    | (Raised e, w') => (Raised e, w')
    end.

(** [try: body except Exception as e: handler]. *)
Definition try_except {A : Type} (body : M A) (handler : Exn -> M A) : M A :=
  fun w =>
    match body w with
    | (Returned a, w') => (Returned a, w')
    | (Raised e, w') => handler e w'
    end.

Definition modify (f : World -> World) : M unit := fun w => (Returned tt, f w).

Definition gets {A : Type} (f : World -> A) : M A := fun w => (Returned (f w), w).

(** The world a call leaves. *)
Definition exec {A : Type} (m : M A) (w : World) : World := snd (m w).

Declare Scope py_scope.
Delimit Scope py_scope with py.
Notation "x <- c1 ;; c2" := (bind c1 (fun x => c2))
  (at level 100, c1 at next level, right associativity) : py_scope.
Notation "c1 ;; c2" := (bind c1 (fun _ => c2))
  (at level 100, right associativity) : py_scope.
Local Open Scope py_scope.

(** [open(path, 'r').read()]: the text of the file, or the exception
    of the environment at a path that yields none. *)
Definition py_open_read (path : string) : M string :=
  fun w =>
    match fs w !! path with
    | Some text => (Returned text, w)
    | None => (Raised (open_error path), w)
    end.

(** [with open(path, 'w') as f: f.write(text)]. *)
Definition py_open_write (path text : string) : M unit :=
  match os_write path text with
  | Written => modify (with_fs (fun files => <[path := text]> files))
  | Refused e => raise e
  | Broken remains e =>
      modify (with_fs (fun files => <[path := remains]> files)) ;;
      raise e
  end.

Definition QMessageBox_critical (title text : string) : M unit :=
  modify (show (critical title text)).

Definition QMessageBox_information (title text : string) : M unit :=
  modify (show (information title text)).

Definition QMessageBox_warning (title text : string) : M unit :=
  modify (show (warning title text)).

(** [QComboBox.currentText()]: the item at the current index, the empty
    string when there is none. *)
Definition currentText (m : MainWindow) : string :=
  nth (analysis_type_combo m) analysis_items "".

(** [QTextEdit.append(text)] on the plain text of the widget: a new
    paragraph after what is there. *)
Definition QTextEdit_append (old text : string) : string :=
  match old with
  | EmptyString => text
  | _ => old +:+ String Py.LF text
  end.

(** [MainWindow.on_text_changed], the slot of [xml_text.textChanged]. *)
Definition on_text_changed : M unit :=
  m <- gets self ;;
  (if negb (is_modified m)
   then modify (with_self (set_is_modified true))
   else ret tt) ;;
  modify (with_self (set_save_button true)).

(** [self.xml_text.setText(text)]: the widget holds the document built
    from [text], fresh and unmodified, and emits [textChanged], which
    runs the connected slot [on_text_changed] (line 235). *)
Definition xml_text_setText (text : string) : M unit :=
  modify (with_self (set_xml_text (plain_text text))) ;;
  modify (with_self (set_xml_text_modified false)) ;;
  on_text_changed.

(** [ET.parse(filename).getroot()]: the parser reads the file itself
    and returns its root element or raises. *)
Definition ET_parse_getroot (filename : string) : M Element :=
  fun w => (ET_parse (fs w) filename, w).

(** [MainWindow.parse_xml_file].  The closing [tree_view.expandAll()]
    changes the view only, which is not part of the world. *)
Definition parse_xml_file (filename : string) : M unit :=
  root_elem <- ET_parse_getroot filename ;;
  modify (with_self (fun m =>
    set_tree_model
      (MkTreeModel (header_labels (tree_model m))
                   (insert_tree_items (root_rows (tree_model m)) root_elem))
      m)).

(** [self.db.xml_reader(filename)]. *)
Definition db_xml_reader (filename : string) : M unit :=
  fun w =>
    let '(db', raised) := xml_reader (fs w) filename (db (self w)) in
    let w' := record_call (call_xml_reader filename) (with_self (set_db db') w) in
    match raised with
    | None => (Returned tt, w')
    | Some e => (Raised e, w')
    end.

(** Lines 335-336 of [open_file]: [filename.index('.')] and the path
    [filename[:index] + '_results.txt']. *)
Definition results_path (filename : string) : Result string :=
  match Py.index "." filename with
  | Some index => Returned (Py.slice_to index filename +:+ "_results.txt")
  | None => Raised (ValueError "substring not found")
  end.

(** [MainWindow.open_file], for the [filename] that
    [QFileDialog.getOpenFileName] returns (empty when the user cancels). *)
Definition open_file (filename : string) : M unit :=
  if Py.truthy filename then
    try_except
      (file_content <- py_open_read filename ;;
       match fromstring file_content with
       | NotWellFormed e =>
           QMessageBox_critical "Open Error"
             ("Invalid XML format:" +:+ String Py.LF e)
       | Fails e => raise e
       | Parsed _ =>
           modify (with_self (set_tree_model (MkTreeModel [] []))) ;;
           modify (with_self (fun m =>
             set_tree_model
               (MkTreeModel ["XML Structure"] (root_rows (tree_model m))) m)) ;;
           parse_xml_file filename ;;
           modify (with_self (set_current_file filename)) ;;
           xml_text_setText file_content ;;
           db_xml_reader filename ;;
           match results_path filename with
           | Returned path =>
               modify (with_self (fun m =>
                 set_db (set_results_file path (db m)) m))
           | Raised e => raise e
           end
       end)
      (fun e => QMessageBox_critical "Open Error" (str e))
  else ret tt.

(** [MainWindow.save_file]. *)
Definition save_file : M unit :=
  m <- gets self ;;
  if negb (Py.truthy (current_file m)) || negb (is_modified m) then ret tt
  else
    let text := xml_text m in
    match fromstring text with
    | NotWellFormed e =>
        QMessageBox_critical "Save Error"
          ("Invalid XML format:" +:+ String Py.LF e)
    | Fails e => raise e
    | Parsed _ =>
        try_except
          (py_open_write (current_file m) text ;;
           modify (with_self (set_xml_text_modified false)) ;;
           modify (with_self (set_is_modified false)) ;;
           modify (with_self (set_save_button false)) ;;
           QMessageBox_information "Save" ("Saved " +:+ current_file m))
          (fun e => QMessageBox_critical "Save Error" (str e))
    end.

(** Modelled from the spec: [StructuralDatabase.run_analysis] belongs to
    the package [strudbpkg], which is not among the sources.  The run
    invocation takes the model and a log destination and returns either
    success, with the report path populated, or a structured failure; the
    log destination receives the progress messages; the report is
    written in full or not at all, a failed run leaving the file at the
    report path as it was. *)
Definition run_analysis (log_file : string) : M RunResult :=
  fun w =>
    let w1 := record_call (call_run_analysis log_file) w in
    match engine (db (self w)) with
    | EngineSuccess db' log report =>
        (Returned RunSucceeded,
         with_fs (fun files => <[results_file db' := report]> (<[log_file := log]> files))
                 (with_self (set_db db') w1))
    | EngineFailure db' log e =>
        (Returned (RunFailed e),
         with_fs (fun files => <[log_file := log]> files)
                 (with_self (set_db db') w1))
    end.

(** [MainWindow.run_static_linear].  What [run_analysis] returns is not
    looked at (line 448); [setText] leaves in each widget the plain text
    of the document it builds. *)
Definition run_static_linear : M unit :=
  let log_file := "analysis.log" in
  run_analysis log_file ;;
  log <- py_open_read log_file ;;
  modify (with_self (set_analysis_text (plain_text log))) ;;
  path <- gets (fun w => results_file (db (self w))) ;;
  data <- py_open_read path ;;
  modify (with_self (set_log_text (plain_text data))).

Definition run_static_nonlinear : M unit :=
  QMessageBox_information "Not Implemented"
    "Static Nonlinear Analysis is not yet implemented.".

Definition run_dynamic_linear : M unit :=
  QMessageBox_information "Not Implemented"
    "Dynamic Linear Analysis is not yet implemented.".

Definition run_dynamic_nonlinear : M unit :=
  QMessageBox_information "Not Implemented"
    "Dynamic Nonlinear Analysis is not yet implemented.".

Definition run_frequency_domain : M unit :=
  QMessageBox_information "Not Implemented"
    "Frequency Domain Analysis is not yet implemented.".

Definition run_buckling : M unit :=
  QMessageBox_information "Not Implemented"
    "Buckling Analysis is not yet implemented.".

(** The final [else] of [run_selected_analysis]. *)
Definition unknown_analysis_type : M unit :=
  QMessageBox_warning "Analysis" "Unknown analysis type selected.".

(** The branches of the [if]/[elif] chain of [run_selected_analysis]. *)
Inductive Branch : Type :=
| static_linear
| static_nonlinear
| dynamic_linear
| dynamic_nonlinear
| frequency_domain
| buckling
| unknown_type.

(** The branch that the comparisons of [run_selected_analysis] select
    for [anal_type], tried in the order of the source. *)
Definition select_branch (anal_type : string) : Branch :=
  if (anal_type =? "Static Linear Analysis")%string then static_linear
  else if (anal_type =? "Static Nonlinear Analysis")%string then static_nonlinear
  else if (anal_type =? "Dynamic Linear Analysis")%string then dynamic_linear
  else if (anal_type =? "Dynamic Nonlinear Analysis")%string then dynamic_nonlinear
  else if (anal_type =? "Frequency Domain Analysis")%string then frequency_domain
  else if (anal_type =? "Buckling Analysis")%string then buckling
  else unknown_type.

(** The body of each branch. *)
Definition run_branch (b : Branch) : M unit :=
  match b with
  | static_linear => run_static_linear
  | static_nonlinear => run_static_nonlinear
  | dynamic_linear => run_dynamic_linear
  | dynamic_nonlinear => run_dynamic_nonlinear
  | frequency_domain => run_frequency_domain
  | buckling => run_buckling
  | unknown_type => unknown_analysis_type
  end.

(** [MainWindow.run_selected_analysis]. *)
Definition run_selected_analysis : M unit :=
  anal_type <- gets (fun w => currentText (self w)) ;;
  run_branch (select_branch anal_type).

(** [MainWindow.display_wireframe]. *)
Definition display_wireframe : M unit :=
  modify (with_self (fun m =>
    set_analysis_text
      (QTextEdit_append (analysis_text m)
         ("Displaying wireframe 3D plot..." +:+ String Py.LF ""))
      m)) ;;
  fun w =>
    let w' := record_call call_plot_wire3d w in
    match plot_wire3d (db (self w)) with
    | None => (Returned tt, w')
    | Some e => (Raised e, w')
    end.

(** *** The events of the window *)

(** What the user can do to the window.  [open_triggered filename] is the
    Open button or menu entry followed by the choice of [filename] in the
    file dialog (empty when cancelled); [text_edited text] an edit of the
    XML text after which the plain text of the widget is [text]. *)
Inductive Event : Type :=
| open_triggered (filename : string)
| save_clicked
| text_edited (text : string)
| type_selected (i : nat)
| run_triggered
| wireframe_triggered.

(** The slot that an event runs.  A disabled Save button emits no
    [clicked]; the combo box offers only its six items; an edit changes
    the document and emits [textChanged]. *)
Definition slot (ev : Event) : M unit :=
  match ev with
  | open_triggered filename => open_file filename
  | save_clicked =>
      m <- gets self ;;
      if save_button m then save_file else ret tt
  | text_edited text =>
      modify (with_self (set_xml_text text)) ;;
      modify (with_self (set_xml_text_modified true)) ;;
      on_text_changed
  | type_selected i =>
      if (i <? length analysis_items)%nat
      then modify (with_self (set_analysis_type_combo i))
      else ret tt
  | run_triggered => run_selected_analysis
  | wireframe_triggered => display_wireframe
  end.

Definition step (w : World) (ev : Event) : World := exec (slot ev) w.

(** The worlds the window can be in: it starts as [__init__] leaves it,
    with any database, any files and nothing shown, and then handles
    events. *)
Inductive reachable : World -> Prop :=
| reachable_init db0 files :
    reachable (MkWorld (init db0) files [] [])
| reachable_step w ev :
    reachable w -> reachable (step w ev).

(** *** Predicates of the properties below *)

(** The Save button is enabled if and only if [is_modified] is true. *)
Definition save_iff_modified (w : World) : Prop :=
  save_button (self w) = true <-> is_modified (self w) = true.

(** The pair of [is_modified] and the enabled flag of the Save button. *)
Definition flags (w : World) : bool * bool :=
  (is_modified (self w), save_button (self w)).

(** [save_file] gets to the end of its [try] block: the guard of line
    341 lets it pass, the text is well-formed and the write is not
    refused. *)
Definition save_succeeds (w : World) : bool :=
  Py.truthy (current_file (self w))
  && is_modified (self w)
  && match fromstring (xml_text (self w)) with
     | Parsed _ => true
     | _ => false
     end
  && match os_write (current_file (self w)) (xml_text (self w)) with
     | Written => true
     | _ => false
     end.

(** [open_file filename] fails after the XML validation has succeeded:
    the file is read and well-formed, and an Open Error is reported. *)
Definition fails_after_validation (filename : string) (w : World) : Prop :=
  Py.truthy filename = true /\
  (exists content root,
      fs w !! filename = Some content /\ fromstring content = Parsed root) /\
  (exists text,
      shown (exec (open_file filename) w) = shown w ++ [critical "Open Error" text]).

(** [open_file filename] opens the file successfully: the file is read
    and validated, [ET.parse] returns its root, the loader does not raise
    and the results path is derived, so that no error is reported. *)
Definition opens_successfully (filename : string) (w : World) : Prop :=
  Py.truthy filename = true /\
  (exists content root,
      fs w !! filename = Some content /\ fromstring content = Parsed root) /\
  (exists tree_root, ET_parse (fs w) filename = Returned tree_root) /\
  snd (xml_reader (fs w) filename (db (self w))) = None /\
  (exists path, results_path filename = Returned path).

(** None of the five parts of the state that [open_file] assigns differs
    between [w] and [w']. *)
Definition none_updated (w w' : World) : Prop :=
  current_file (self w') = current_file (self w) /\
  tree_model (self w') = tree_model (self w) /\
  xml_text (self w') = xml_text (self w) /\
  model (db (self w')) = model (db (self w)) /\
  results_file (db (self w')) = results_file (db (self w)).

(** All five parts of the state are, in [w'], those of the file
    [filename] opened in [w]. *)
Definition all_updated (filename : string) (w w' : World) : Prop :=
  exists content root path,
    fs w !! filename = Some content /\
    ET_parse (fs w) filename = Returned root /\
    results_path filename = Returned path /\
    current_file (self w') = filename /\
    tree_model (self w') = MkTreeModel ["XML Structure"] [node_of root] /\
    xml_text (self w') = plain_text content /\
    model (db (self w')) = model (fst (xml_reader (fs w) filename (db (self w)))) /\
    results_file (db (self w')) = path.

(** [open_file filename] commits all of the five parts or none. *)
Definition open_all_or_none (filename : string) (w : World) : Prop :=
  none_updated w (exec (open_file filename) w)
  \/ all_updated filename w (exec (open_file filename) w).

(** The window after lines 328-332 of [open_file]: the tree rebuilt from
    the root element that [ET.parse] returned, [current_file] assigned,
    the text set (its plain text being [shown_text]) and the slot of
    [textChanged] run. *)
Definition opened_window (filename shown_text : string) (root : Element)
  (m : MainWindow) : MainWindow :=
  set_save_button true
    (set_is_modified true
       (set_xml_text_modified false
          (set_xml_text shown_text
             (set_current_file filename
                (set_tree_model (MkTreeModel ["XML Structure"] [node_of root]) m))))).

(** [save_file] treats the text as the claim on saving ill-formed text
    says: nothing is written, an Invalid XML format error is reported and
    [is_modified] is true afterwards. *)
Definition save_rejected (w : World) : Prop :=
  fs (exec save_file w) = fs w /\
  (exists msg,
      shown (exec save_file w)
      = shown w ++ [critical "Save Error" ("Invalid XML format:" +:+ String Py.LF msg)]) /\
  is_modified (self (exec save_file w)) = true.

End Shell.

Arguments MainWindow {_}.
Arguments World {_}.

(** ** The results path that the specification describes *)

(** [s.rfind(c)] for a one-character [c]: the position of the last
    occurrence. *)
Fixpoint rfind (c : ascii) (s : string) : option nat :=
  match s with
  | EmptyString => None
  | String a rest =>
      match rfind c rest with
      | Some i => Some (S i)
      | None => if Ascii.eqb a c then Some 0 else None
      end
  end.

(** Some character of [s] is not a dot. *)
Fixpoint has_non_dot (s : string) : bool :=
  match s with
  | EmptyString => false
  | String a rest => negb (Ascii.eqb a ".") || has_non_dot rest
  end.

(** The path without its extension.  The extension starts at the last
    dot of the last component of the path, the dots that begin the
    component apart (as [os.path.splitext] has it). *)
Definition without_extension (path : string) : string :=
  match rfind "." path with
  | None => path
  | Some dot =>
      let start := match rfind "/" path with None => 0 | Some sep => S sep end in
      if (start <=? dot)%nat && has_non_dot (substring start (dot - start) path)
      then substring 0 dot path
      else path
  end.

(** Following the words of the specification: the results-file path is
    the model's path with its extension replaced by the fixed suffix, the
    directory and the base name kept. *)
Definition replace_extension (path : string) : string :=
  without_extension path +:+ "_results.txt".

(** ** A sample environment *)

(** A document that declares the encoding [US-ASCII] and holds the letter
    e with an acute accent: well-formed as a string, not well-formed as
    the bytes of a UTF-8 file. *)
Definition sample_latin : string :=
  "<?xml version='1.0' encoding='US-ASCII'?><note>"
  +:+ String (ascii_of_nat 233) "</note>".

(** A document whose text is one no-break space. *)
Definition sample_nbsp : string :=
  "<note>" +:+ String (ascii_of_nat 160) "</note>".

(** A parser that agrees with [ET.fromstring] on the documents used in
    the samples below: the well-formed ones, and two that end inside
    their first tag.  Any other document is taken as not well-formed. *)
Definition sample_fromstring (document : string) : Parse :=
  if (document =? "<frame/>")%string then Parsed (Elem "frame" None [])
  else if (document =? "<truss><node>1 0 0</node></truss>")%string
  then Parsed (Elem "truss" None [Elem "node" (Some "1 0 0") []])
  else if (document =? sample_latin)%string
  then Parsed (Elem "note" (Some (String (ascii_of_nat 233) "")) [])
  else if (document =? sample_nbsp)%string
  then Parsed (Elem "note" (Some (String (ascii_of_nat 160) "")) [])
  else if (document =? "<note> </note>")%string
  then Parsed (Elem "note" (Some " ") [])
  else if (document =? "<frame")%string || (document =? "<truss")%string
  then NotWellFormed "unclosed token: line 1, column 0"
  else NotWellFormed "syntax error: line 1, column 0".

(** Each no-break space of a string replaced by a space. *)
Fixpoint nbsp_to_space (s : string) : string :=
  match s with
  | EmptyString => EmptyString
  | String c rest =>
      String (if Ascii.eqb c (ascii_of_nat 160) then " "%char else c)
             (nbsp_to_space rest)
  end.

(** An environment to run the shell in.  The model of the database is
    the text of the file it was loaded from; the loader fails on files
    that are missing; the analysis succeeds on the truss and fails on
    every other model; the file parser rejects the bytes of
    [sample_latin]; the editor takes [<p>x</p>] as rich text; one path is
    read-only and one is on a full disk. *)
#[local] Instance sample_environment : Environment := {|
  Model := string;
  fromstring := sample_fromstring;
  ET_parse := fun files filename =>
    match files !! filename with
    | None => Raised (OSError "[Errno 2] No such file or directory")
    | Some document =>
        if (document =? sample_latin)%string
        then Raised (ParseError "not well-formed (invalid token): line 1, column 47")
        else match sample_fromstring document with
             | Parsed root => Returned root
             | NotWellFormed msg => Raised (ParseError msg)
             | Fails e => Raised e
             end
    end;
  plain_text := fun text =>
    if (text =? "<p>x</p>")%string then "x" else nbsp_to_space text;
  open_error := fun path =>
    OSError ("[Errno 2] No such file or directory: '" +:+ path +:+ "'");
  os_write := fun path text =>
    if (path =? "/readonly/frame.xml")%string
    then Refused (OSError "[Errno 13] Permission denied: '/readonly/frame.xml'")
    else if (path =? "/full/frame.xml")%string
    then Broken "" (OSError "[Errno 28] No space left on device")
    else Written;
  xml_reader := fun files filename d =>
    match files !! filename with
    | Some document => (MkDB document (results_file d), None)
    | None => (d, Some (OSError "no such file"))
    end;
  engine := fun d =>
    if (model d =? "<truss><node>1 0 0</node></truss>")%string
    then EngineSuccess d "solver finished" "displacements of the truss"
    else EngineFailure d "solver failed" (OtherError "singular system");
  plot_wire3d := fun _ => None
|}.

(** Files on disk: well-formed models under several names, and a file
    that is not XML. *)
Definition sample_files : gmap string string :=
  <["/home/j.doe/beam.xml" := "<frame/>"]>
  (<["/srv/models/portal" := "<frame/>"]>
  (<["/srv/models/truss.xml" := "<truss><node>1 0 0</node></truss>"]>
  (<["/srv/models/notes.xml" := "<frame"]>
  (<["/srv/models/old_results.txt" := "displacements of an earlier run"]> ∅)))).

(** The window just started on a database that holds no model. *)
Definition sample_start : World :=
  MkWorld (init (MkDB "" "/srv/models/old_results.txt")) sample_files [] [].

(** The sample window after the user has opened the truss model. *)
Definition sample_opened : World :=
  step sample_start (open_triggered "/srv/models/truss.xml").

(** The sample window after the user has typed ill-formed text into the
    empty editor, no file being open. *)
Definition sample_typed : World :=
  step sample_start (text_edited "<frame").

(** The sample window after the user has opened the truss model and
    broken its text. *)
Definition sample_broken : World :=
  step sample_opened (text_edited "<truss").

(** A window just started where the only file declares an encoding
    that its bytes do not have. *)
Definition sample_latin_start : World :=
  MkWorld (init (MkDB "" "")) (<["/srv/models/latin.xml" := sample_latin]> ∅) [] [].

(** A window just started where the only file holds a no-break space. *)
Definition sample_nbsp_start : World :=
  MkWorld (init (MkDB "" "")) (<["/srv/models/nbsp.xml" := sample_nbsp]> ∅) [] [].

(** The sample window after the truss model has been opened and
    analysed: the report of that run is on disk and in the log text. *)
Definition sample_first_run : World :=
  step sample_opened run_triggered.

(** The sample window after the user has then replaced the model by a
    frame without nodes, saved it and opened it again. *)
Definition sample_reopened : World :=
  step (step (step sample_first_run (text_edited "<frame/>")) save_clicked)
       (open_triggered "/srv/models/truss.xml").

(** A window that has just opened a model on a disk that is full. *)
Definition sample_full_disk : World :=
  step (MkWorld (init (MkDB "" "")) (<["/full/frame.xml" := "<frame/>"]> ∅) [] [])
       (open_triggered "/full/frame.xml").

(** ** Measures of strings and trees *)

(** [sep.join(parts)] for a one-character [sep]. *)
Fixpoint str_join (sep : ascii) (parts : list string) : string :=
  match parts with
  | [] => EmptyString
  | [part] => part
  | part :: rest => part +:+ String sep (str_join sep rest)
  end.

(** The text of a [QStandardItem]. *)
Definition item_text (item : Item) : string :=
  match item with MkItem label _ => label end.

(** The number of items in the subtree of an item, itself included. *)
Fixpoint count_items (item : Item) : nat :=
  match item with
  | MkItem _ rows => S (list_sum (map count_items rows))
  end.

(** The number of elements in a document below and including [element]. *)
Fixpoint count_elements (element : Element) : nat :=
  match element with
  | Elem _ _ children => S (list_sum (map count_elements children))
  end.

(** The number of lines of non-blank text that the elements of a
    document carry, each text stripped first. *)
Fixpoint count_text_lines (element : Element) : nat :=
  match element with
  | Elem _ text children =>
      length (text_rows text) + list_sum (map count_text_lines children)
  end.

(** A window that has just opened a model which the operating system
    will not let it write. *)
Definition sample_readonly : World :=
  step (MkWorld (init (MkDB "" "")) (<["/readonly/frame.xml" := "<frame/>"]> ∅) [] [])
       (open_triggered "/readonly/frame.xml").

(** The sample window after the user has opened the truss model and
    replaced its text by another well-formed document. *)
Definition sample_edited : World :=
  step sample_opened (text_edited "<frame/>").

(** * Properties *)

Example index_first_dot : Py.index "." "a.b.c" = Some 1.
Proof. reflexivity. Qed.

Example strip_split :
  Py.split Py.LF (Py.strip (" 1 2" +:+ String Py.LF "3 4" +:+ String Py.LF ""))
  = ["1 2"; "3 4"].
Proof. reflexivity. Qed.

Example insert_tree_items_sample :
  insert_tree_items []
    (Elem "frame" (Some " ") [Elem "node" (Some ("1 0 0" +:+ String Py.LF "2 4 0")) []])
  = [MkItem "frame" [MkItem "node" [MkItem "1 0 0" []; MkItem "2 4 0" []]]].
Proof. reflexivity. Qed.

Section Properties.

Context `{Environment}.

(** ** Equations of the handlers *)

Lemma on_text_changed_eq (w : World) :
  on_text_changed w
  = (Returned tt, with_self (fun m => set_save_button true (set_is_modified true m)) w).
Proof.
  destruct w as [m files sh calls]; destruct m as [d cf md sb ix tm xt xm at_ lt].
  destruct md; reflexivity.
Qed.

Lemma xml_text_setText_eq (text : string) (w : World) :
  xml_text_setText text w
  = (Returned tt,
     with_self (fun m =>
       set_save_button true
         (set_is_modified true
            (set_xml_text_modified false (set_xml_text (plain_text text) m)))) w).
Proof.
  unfold xml_text_setText, bind, modify. rewrite on_text_changed_eq.
  destruct w as [m files sh calls]; reflexivity.
Qed.

Lemma py_open_read_eq (path text : string) (w : World) :
  fs w !! path = Some text -> py_open_read path w = (Returned text, w).
Proof. intros Hread. unfold py_open_read. now rewrite Hread. Qed.

Lemma parse_xml_file_eq (filename : string) (w : World) :
  parse_xml_file filename w
  = match ET_parse (fs w) filename with
    | Returned root =>
        (Returned tt,
         with_self (fun m =>
           set_tree_model
             (MkTreeModel (header_labels (tree_model m))
                          (insert_tree_items (root_rows (tree_model m)) root)) m) w)
    | Raised e => (Raised e, w)
    end.
Proof.
  unfold parse_xml_file, ET_parse_getroot, bind.
  destruct (ET_parse (fs w) filename); reflexivity.
Qed.

(** [open_file] when the user cancels the file dialog. *)
Lemma open_file_cancelled (w : World) : open_file "" w = (Returned tt, w).
Proof. reflexivity. Qed.

(** [open_file] on a file that is read and validated.  When [ET.parse]
    raises at line 330, the tree has been cleared and nothing else is
    assigned.  Otherwise the window is updated up to line 332, then the
    loader runs, then the results path is derived; an exception of
    either is reported and ends the call. *)
Lemma open_file_validated (w : World) (filename content : string) (root : Element) :
  Py.truthy filename = true ->
  fs w !! filename = Some content ->
  fromstring content = Parsed root ->
  open_file filename w
  = match ET_parse (fs w) filename with
    | Raised e =>
        (Returned tt,
         show (critical "Open Error" (str e))
           (with_self (set_tree_model (MkTreeModel ["XML Structure"] [])) w))
    | Returned tree_root =>
        let loaded := xml_reader (fs w) filename (db (self w)) in
        let w2 :=
          record_call (call_xml_reader filename)
            (with_self (set_db (fst loaded))
               (with_self
                  (opened_window filename (plain_text content) tree_root) w)) in
        match snd loaded with
        | Some e => (Returned tt, show (critical "Open Error" (str e)) w2)
        | None =>
            match results_path filename with
            | Returned path =>
                (Returned tt,
                 with_self (fun m => set_db (set_results_file path (db m)) m) w2)
            | Raised e => (Returned tt, show (critical "Open Error" (str e)) w2)
            end
        end
    end.
Proof.
  intros Hname Hread Hparse.
  unfold open_file. rewrite Hname.
  unfold try_except, bind at 1.
  rewrite (py_open_read_eq _ _ _ Hread), Hparse.
  unfold bind at 1. unfold modify at 1.
  unfold bind at 1. unfold modify at 1.
  unfold bind at 1.
  rewrite parse_xml_file_eq.
  destruct w as [m files sh calls]; destruct m as [d cf md sb ix tm xt xm at_ lt].
  cbn [fs with_self].
  destruct (ET_parse files filename) as [tree_root | e]; [|reflexivity].
  unfold bind at 1. unfold modify at 1.
  unfold bind at 1. rewrite xml_text_setText_eq.
  unfold bind, db_xml_reader.
  simpl.
  destruct (xml_reader files filename d) as [db1 [e|]]; simpl.
  - reflexivity.
  - destruct (results_path filename); reflexivity.
Qed.

(** [open_file] on a path that yields no text. *)
Lemma open_file_unreadable (w : World) (filename : string) :
  Py.truthy filename = true ->
  fs w !! filename = None ->
  open_file filename w
  = (Returned tt, show (critical "Open Error" (str (open_error filename))) w).
Proof.
  intros Hname Hread.
  unfold open_file. rewrite Hname.
  unfold try_except, bind, py_open_read. rewrite Hread. reflexivity.
Qed.

(** [open_file] on a file whose text is not well-formed. *)
Lemma open_file_rejected (w : World) (filename content msg : string) :
  Py.truthy filename = true ->
  fs w !! filename = Some content ->
  fromstring content = NotWellFormed msg ->
  open_file filename w
  = (Returned tt,
     show (critical "Open Error" ("Invalid XML format:" +:+ String Py.LF msg)) w).
Proof.
  intros Hname Hread Hparse.
  unfold open_file. rewrite Hname.
  unfold try_except, bind. rewrite (py_open_read_eq _ _ _ Hread), Hparse.
  reflexivity.
Qed.

(** [open_file] on a file at whose text [ET.fromstring] raises something
    other than [ParseError]: the outer handler reports it. *)
Lemma open_file_parser_raised (w : World) (filename content : string) (e : Exn) :
  Py.truthy filename = true ->
  fs w !! filename = Some content ->
  fromstring content = Fails e ->
  open_file filename w
  = (Returned tt, show (critical "Open Error" (str e)) w).
Proof.
  intros Hname Hread Hparse.
  unfold open_file. rewrite Hname.
  unfold try_except, bind. rewrite (py_open_read_eq _ _ _ Hread), Hparse.
  reflexivity.
Qed.

(** [save_file], branch by branch. *)
Lemma save_file_eq (w : World) :
  save_file w
  = if negb (Py.truthy (current_file (self w))) || negb (is_modified (self w))
    then (Returned tt, w)
    else
      match fromstring (xml_text (self w)) with
      | NotWellFormed e =>
          (Returned tt,
           show (critical "Save Error" ("Invalid XML format:" +:+ String Py.LF e)) w)
      | Fails e => (Raised e, w)
      | Parsed _ =>
          match os_write (current_file (self w)) (xml_text (self w)) with
          | Refused e => (Returned tt, show (critical "Save Error" (str e)) w)
          | Broken remains e =>
              (Returned tt,
               show (critical "Save Error" (str e))
                 (with_fs (fun files => <[current_file (self w) := remains]> files) w))
          | Written =>
              (Returned tt,
               show (information "Save" ("Saved " +:+ current_file (self w)))
                 (with_self (fun m =>
                    set_save_button false
                      (set_is_modified false (set_xml_text_modified false m)))
                    (with_fs (fun files =>
                       <[current_file (self w) := xml_text (self w)]> files) w)))
          end
      end.
Proof.
  unfold save_file, bind, gets.
  destruct (negb (Py.truthy (current_file (self w))) || negb (is_modified (self w)));
    [reflexivity|].
  destruct (fromstring (xml_text (self w))); [|reflexivity|reflexivity].
  unfold try_except, bind, py_open_write.
  destruct (os_write (current_file (self w)) (xml_text (self w))); reflexivity.
Qed.

(** The outcomes of [open_file filename] in [w], one goal each: the file
    parser raised, the loader raised, the path was derived, the
    derivation raised, the text was rejected, the string parser raised,
    the file was unreadable, the dialog was cancelled. *)
Ltac open_file_cases w filename :=
  let Hname := fresh "Hname" in
  let Hread := fresh "Hread" in
  let Hparse := fresh "Hparse" in
  let Htree := fresh "Htree" in
  destruct (Py.truthy filename) eqn:Hname;
  [ destruct (fs w !! filename) as [content|] eqn:Hread;
    [ destruct (fromstring content) as [root|msg|perr] eqn:Hparse;
      [ rewrite (open_file_validated _ _ _ _ Hname Hread Hparse);
        destruct (ET_parse (fs w) filename) as [tree_root | terr] eqn:Htree;
        [ cbv zeta;
          destruct (xml_reader (fs w) filename (db (self w))) as [db1 [e|]];
          cbn [fst snd];
          [ | destruct (results_path filename) ]
        | ]
      | rewrite (open_file_rejected _ _ _ _ Hname Hread Hparse)
      | rewrite (open_file_parser_raised _ _ _ _ Hname Hread Hparse) ]
    | rewrite (open_file_unreadable _ _ Hname Hread) ]
  | unfold open_file; rewrite Hname ].

(** The outcomes of [save_file] in [w]: stopped by the guard, written,
    refused, broken off, rejected as ill-formed, the parser raised. *)
Ltac save_file_cases w :=
  rewrite (save_file_eq w);
  destruct (negb (Py.truthy (current_file (self w))) || negb (is_modified (self w)));
  [ | destruct (fromstring (xml_text (self w)));
      [ destruct (os_write (current_file (self w)) (xml_text (self w))) | | ] ].

(** The outcomes of [run_static_linear] in [w]: for a run that succeeds
    and for one that fails, the log is read or not, the report is read
    or not. *)
Ltac run_static_linear_cases w :=
  unfold run_static_linear, bind, run_analysis, gets, modify, py_open_read;
  destruct (engine (db (self w))) as [db' log report | db' log e];
  cbn [fs with_fs with_self record_call self];
  (destruct (_ !! "analysis.log") as [text|];
   [ cbn [fs with_fs with_self record_call self set_analysis_text set_db db snd];
     destruct (_ !! results_file db') as [data|] | ]).

(** The outcomes of an event in [w]. *)
Ltac step_cases w ev :=
  destruct ev as [filename | | text | i | | ]; unfold step, exec, slot;
  [ open_file_cases w filename
  | unfold bind, gets; destruct (save_button (self w)); [save_file_cases w | ]
  | unfold bind, modify; rewrite on_text_changed_eq
  | destruct (i <? length analysis_items)%nat eqn:Hindex
  | unfold run_selected_analysis, bind, gets;
    destruct (select_branch (currentText (self w)));
    [ cbn [run_branch]; run_static_linear_cases w | .. ]
  | unfold display_wireframe, bind, modify;
    cbn [with_self self db set_analysis_text];
    destruct (plot_wire3d (db (self w))) ].

Lemma run_static_linear_flags (w : World) :
  flags (exec run_static_linear w) = flags w.
Proof. unfold exec. run_static_linear_cases w; reflexivity. Qed.

Lemma run_branch_flags (b : Branch) (w : World) :
  flags (exec (run_branch b) w) = flags w.
Proof.
  destruct b; try reflexivity. apply run_static_linear_flags.
Qed.

Lemma run_selected_analysis_flags (w : World) :
  flags (exec run_selected_analysis w) = flags w.
Proof.
  unfold run_selected_analysis, bind, gets, exec. apply run_branch_flags.
Qed.

Lemma display_wireframe_flags (w : World) :
  flags (exec display_wireframe w) = flags w.
Proof.
  unfold exec, display_wireframe, bind, modify.
  cbn [with_self self db set_analysis_text].
  destruct (plot_wire3d _); reflexivity.
Qed.

Lemma save_file_flags (w : World) :
  flags (exec save_file w) = if save_succeeds w then (false, false) else flags w.
Proof.
  unfold exec, save_succeeds. rewrite save_file_eq.
  destruct (Py.truthy (current_file (self w))); [|reflexivity].
  destruct (is_modified (self w)); [|reflexivity].
  cbn [negb orb andb].
  destruct (fromstring (xml_text (self w))); [|reflexivity|reflexivity].
  destruct (os_write (current_file (self w)) (xml_text (self w))); reflexivity.
Qed.

Lemma open_file_flags (w : World) (filename : string) :
  flags (exec (open_file filename) w) = flags w
  \/ flags (exec (open_file filename) w) = (true, true).
Proof.
  unfold exec. open_file_cases w filename;
    first [ left; reflexivity | right; reflexivity ].
Qed.

Lemma run_static_linear_calls (w : World) :
  db_calls (exec run_static_linear w)
  = db_calls w ++ [call_run_analysis "analysis.log"].
Proof. unfold exec. run_static_linear_cases w; reflexivity. Qed.

Lemma run_static_linear_shown (w : World) :
  shown (exec run_static_linear w) = shown w.
Proof. unfold exec. run_static_linear_cases w; reflexivity. Qed.

(** A text other than the first item never selects the Static Linear
    branch. *)
Lemma select_branch_static_linear (t : string) :
  select_branch t = static_linear <-> t = "Static Linear Analysis".
Proof.
  unfold select_branch. split.
  - destruct (String.eqb_spec t "Static Linear Analysis"); [easy|].
    repeat match goal with
           | |- context [if ?b then _ else _] => destruct b
           end; discriminate.
  - intros ->. reflexivity.
Qed.

(** What a branch other than Static Linear does: it shows one dialog and
    touches nothing else. *)
Lemma run_branch_stub (b : Branch) (w : World) :
  b <> static_linear ->
  exists d, run_branch b w = (Returned tt, show d w).
Proof.
  intros Hb. destruct b; try congruence; eexists; reflexivity.
Qed.

Lemma step_combo (ev : Event) (w : World) :
  analysis_type_combo (self (step w ev)) = analysis_type_combo (self w)
  \/ (analysis_type_combo (self (step w ev)) < length analysis_items)%nat.
Proof.
  step_cases w ev; try (left; reflexivity).
  right. cbn. now apply Nat.ltb_lt in Hindex.
Qed.

(** The current index of the combo box stays below the number of its
    items. *)
Lemma combo_index_in_range (w : World) :
  reachable w -> (analysis_type_combo (self w) < length analysis_items)%nat.
Proof.
  induction 1 as [db0 files | w ev Hw IH]; [cbn; lia|].
  destruct (step_combo ev w) as [Hkeep | Hset]; [now rewrite Hkeep | exact Hset].
Qed.

(** In every world the window can be in, the current text of the combo
    box is one of its six items. *)
Lemma currentText_is_item (w : World) :
  reachable w -> In (currentText (self w)) analysis_items.
Proof.
  intros Hw. apply nth_In. now apply combo_index_in_range.
Qed.

(** ** The results path (lines 335-336) *)

Lemma index_stem (stem ext : string) :
  Py.index "." stem = None ->
  Py.index "." (stem +:+ String "." ext) = Some (String.length stem).
Proof.
  induction stem as [|a stem IH]; intros Hstem; [reflexivity|].
  simpl in Hstem. simpl.
  destruct (Ascii.eqb a "."); [discriminate|].
  destruct (Py.index "." stem); [discriminate|].
  now rewrite IH.
Qed.

Lemma slice_to_stem (stem rest : string) :
  Py.slice_to (String.length stem) (stem +:+ rest) = stem.
Proof.
  unfold Py.slice_to. induction stem as [|a stem IH]; simpl.
  - now destruct rest.
  - now rewrite IH.
Qed.

(** When the first dot of the path is the one before the extension, the
    derived path is the stem followed by the results suffix. *)
Lemma results_path_stem (stem ext : string) :
  Py.index "." stem = None ->
  results_path (stem +:+ String "." ext) = Returned (stem +:+ "_results.txt").
Proof.
  intros Hstem. unfold results_path.
  rewrite (index_stem _ _ Hstem), slice_to_stem. reflexivity.
Qed.

(** ** Dispatch of the selected analysis type *)

(** C3.  For each of the five analysis types other than Static Linear,
    [run_selected_analysis] returns normally after showing the dialog
    "Not Implemented" for that type, and changes nothing else: the
    database, the files and the calls made on the database are as before.
    The Static Linear selection calls [run_analysis] of the database, and
    no other selection makes any call on the database or changes it. *)
Theorem not_implemented_is_reported (w : World) :
  (forall t : string,
      In t (tl analysis_items) ->
      currentText (self w) = t ->
      run_selected_analysis w
      = (Returned tt,
         show (information "Not Implemented" (t +:+ " is not yet implemented.")) w))
  /\ (currentText (self w) = "Static Linear Analysis" ->
      db_calls (exec run_selected_analysis w)
      = db_calls w ++ [call_run_analysis "analysis.log"])
  /\ (currentText (self w) <> "Static Linear Analysis" ->
      db_calls (exec run_selected_analysis w) = db_calls w
      /\ db (self (exec run_selected_analysis w)) = db (self w)
      /\ fs (exec run_selected_analysis w) = fs w).
Proof.
  split; [|split].
  - intros t Ht Hcur.
    unfold run_selected_analysis, bind, gets. rewrite Hcur.
    cbn in Ht.
    destruct Ht as [<- | [<- | [<- | [<- | [<- | []]]]]]; reflexivity.
  - intros Hcur.
    unfold exec, run_selected_analysis, bind, gets. rewrite Hcur.
    apply run_static_linear_calls.
  - intros Hcur.
    unfold exec, run_selected_analysis, bind, gets.
    destruct (run_branch_stub (select_branch (currentText (self w))) w) as [d Hd].
    + intros Hb. now apply select_branch_static_linear in Hb.
    + rewrite Hd. repeat split.
Qed.

(** C7.  When the selected text is one of the six items of the combo
    box, the comparisons of [run_selected_analysis] do not fall through
    to the final [else], and running the handler shows no warning that
    was not shown before. *)
Theorem unknown_type_unreachable (w : World) :
  In (currentText (self w)) analysis_items ->
  select_branch (currentText (self w)) <> unknown_type
  /\ forall title text : string,
      In (warning title text) (shown (exec run_selected_analysis w)) ->
      In (warning title text) (shown w).
Proof.
  intros Hitem.
  assert (Hb : select_branch (currentText (self w)) <> unknown_type).
  { revert Hitem. generalize (currentText (self w)) as t. intros t Ht.
    cbn in Ht.
    destruct Ht as [<- | [<- | [<- | [<- | [<- | [<- | []]]]]]]; discriminate. }
  split; [exact Hb|].
  intros title text.
  unfold exec, run_selected_analysis, bind, gets.
  destruct (select_branch (currentText (self w))); try congruence;
    try (cbn; rewrite in_app_iff; cbn; intros [Hin | [Heq | []]];
         [exact Hin | discriminate]).
  change (In (warning title text) (shown (exec run_static_linear w)) ->
          In (warning title text) (shown w)).
  now rewrite run_static_linear_shown.
Qed.

(** ** Opening a file *)

(** C4.  When the text of the selected file is not well-formed,
    [open_file] returns after showing the error "Invalid XML format"
    with the parser's message, and nothing else changes: [current_file],
    the tree model, the displayed XML text, the database and its
    [results_file] are as they were. *)
Theorem open_file_invalid_xml (w : World) (filename content msg : string) :
  Py.truthy filename = true ->
  fs w !! filename = Some content ->
  fromstring content = NotWellFormed msg ->
  open_file filename w
  = (Returned tt,
     show (critical "Open Error" ("Invalid XML format:" +:+ String Py.LF msg)) w)
  /\ current_file (self (exec (open_file filename) w)) = current_file (self w)
  /\ tree_model (self (exec (open_file filename) w)) = tree_model (self w)
  /\ xml_text (self (exec (open_file filename) w)) = xml_text (self w)
  /\ db (self (exec (open_file filename) w)) = db (self w)
  /\ results_file (db (self (exec (open_file filename) w))) = results_file (db (self w)).
Proof.
  intros Hname Hread Hparse.
  unfold exec. rewrite (open_file_rejected _ _ _ _ Hname Hread Hparse).
  repeat split.
Qed.

(** C6, as the code has it.  When [open_file] fails after the XML
    validation has succeeded, the error is reported in an Open Error
    dialog and what was assigned before the failing step stays.  If
    [ET.parse] raised (line 330), the tree model has been cleared and
    nothing else is assigned.  Otherwise the tree model, [current_file]
    and the displayed text are those of the new file and both flags are
    set; the database is as the loader left it, with the [results_file]
    the loader left, and the failure is the loader's exception or the
    missing dot in the file name. *)
Theorem open_file_failure_keeps_updates (w : World) (filename : string) :
  fails_after_validation filename w ->
  exists content,
    fs w !! filename = Some content
    /\ ((exists e,
            ET_parse (fs w) filename = Raised e
            /\ self (exec (open_file filename) w)
               = set_tree_model (MkTreeModel ["XML Structure"] []) (self w)
            /\ shown (exec (open_file filename) w)
               = shown w ++ [critical "Open Error" (str e)])
        \/ (exists tree_root,
               ET_parse (fs w) filename = Returned tree_root
               /\ current_file (self (exec (open_file filename) w)) = filename
               /\ tree_model (self (exec (open_file filename) w))
                  = MkTreeModel ["XML Structure"] [node_of tree_root]
               /\ xml_text (self (exec (open_file filename) w)) = plain_text content
               /\ flags (exec (open_file filename) w) = (true, true)
               /\ db (self (exec (open_file filename) w))
                  = fst (xml_reader (fs w) filename (db (self w)))
               /\ ((exists e,
                       snd (xml_reader (fs w) filename (db (self w))) = Some e
                       /\ shown (exec (open_file filename) w)
                          = shown w ++ [critical "Open Error" (str e)])
                   \/ (snd (xml_reader (fs w) filename (db (self w))) = None
                       /\ Py.index "." filename = None
                       /\ shown (exec (open_file filename) w)
                          = shown w ++ [critical "Open Error" "substring not found"])))).
Proof.
  intros (Hname & (content & root & Hread & Hparse) & (text & Hshown)).
  exists content. split; [exact Hread|].
  revert Hshown. unfold exec.
  rewrite (open_file_validated _ _ _ _ Hname Hread Hparse).
  destruct (ET_parse (fs w) filename) as [tree_root | terr].
  - cbv zeta. intros Hshown. right. exists tree_root. split; [reflexivity|].
    revert Hshown.
    destruct (xml_reader (fs w) filename (db (self w))) as [db1 [e|]]; cbn [fst snd].
    + intros _. repeat split. left. now exists e.
    + unfold results_path.
      destruct (Py.index "." filename) as [i|].
      * cbn. intros Habs. exfalso.
        apply (f_equal (@length Dialog)) in Habs.
        rewrite length_app in Habs. cbn in Habs. lia.
      * intros _. repeat split. right. repeat split.
  - intros _. left. exists terr. repeat split.
Qed.

(** C10.  Opening a file successfully leaves [is_modified] true and the
    Save button enabled, whatever they were before and although the user
    has edited nothing: [setText] emits [textChanged], whose slot sets
    both.  No dialog is shown on the way. *)
Theorem open_file_marks_modified (w : World) (filename : string) :
  opens_successfully filename w ->
  is_modified (self (exec (open_file filename) w)) = true
  /\ save_button (self (exec (open_file filename) w)) = true
  /\ shown (exec (open_file filename) w) = shown w.
Proof.
  intros (Hname & (content & root & Hread & Hparse) & (tree_root & Htree)
          & Hload & (path & Hpath)).
  unfold exec. rewrite (open_file_validated _ _ _ _ Hname Hread Hparse), Htree.
  cbv zeta. rewrite Hload, Hpath. repeat split.
Qed.

(** ** Saving *)

(** C9, as the code has it.  When the edited text is not well-formed,
    [save_file] writes no file and leaves [is_modified] as it was; when
    moreover the guard of line 341 lets the call pass ([current_file] is
    set and [is_modified] is true), the error "Invalid XML format" is
    reported and [is_modified] is still true; when the guard stops the
    call, nothing is reported. *)
Theorem save_file_invalid_xml (w : World) (msg : string) :
  fromstring (xml_text (self w)) = NotWellFormed msg ->
  fs (exec save_file w) = fs w
  /\ is_modified (self (exec save_file w)) = is_modified (self w)
  /\ (Py.truthy (current_file (self w)) = true ->
      is_modified (self w) = true ->
      save_file w
      = (Returned tt,
         show (critical "Save Error" ("Invalid XML format:" +:+ String Py.LF msg)) w)
      /\ save_rejected w)
  /\ (Py.truthy (current_file (self w)) = false \/ is_modified (self w) = false ->
      save_file w = (Returned tt, w)).
Proof.
  intros Hparse. unfold save_rejected, exec. rewrite save_file_eq, Hparse.
  split; [|split; [|split]].
  - destruct (negb _ || negb _); reflexivity.
  - destruct (negb _ || negb _); reflexivity.
  - intros -> Hmod. rewrite Hmod. cbn [negb orb snd].
    repeat split; [|exact Hmod]. now exists msg.
  - intros [-> | ->]; cbn [negb orb]; [reflexivity|].
    now rewrite orb_true_r.
Qed.

(** ** The Save button and [is_modified] *)

(** C8.  The Save button is enabled exactly when [is_modified] is true:
    this holds when the window is created; [on_text_changed] sets both;
    a [save_file] that succeeds clears both; a [save_file] that fails or
    is skipped leaves both as they were; an [open_file] that gets to
    [setText] (the file is read and validated and [ET.parse] returns)
    sets both; every event of the window preserves the property, so it
    holds in every world the window can be in. *)
Theorem save_button_tracks_is_modified :
  (forall (db0 : DB Model) (files : gmap string string),
      save_iff_modified (MkWorld (init db0) files [] []))
  /\ (forall w : World, flags (exec on_text_changed w) = (true, true))
  /\ (forall w : World,
        save_succeeds w = true -> flags (exec save_file w) = (false, false))
  /\ (forall w : World,
        save_succeeds w = false -> flags (exec save_file w) = flags w)
  /\ (forall (w : World) (filename content : string) (root tree_root : Element),
        Py.truthy filename = true ->
        fs w !! filename = Some content ->
        fromstring content = Parsed root ->
        ET_parse (fs w) filename = Returned tree_root ->
        flags (exec (open_file filename) w) = (true, true))
  /\ (forall (w : World) (ev : Event),
        save_iff_modified w -> save_iff_modified (step w ev))
  /\ (forall w : World, reachable w -> save_iff_modified w).
Proof.
  assert (Hinit : forall (db0 : DB Model) (files : gmap string string),
             save_iff_modified (MkWorld (init db0) files [] [])).
  { intros db0 files. unfold save_iff_modified. cbn. tauto. }
  assert (Hkeep : forall w w' : World,
             flags w' = flags w -> save_iff_modified w -> save_iff_modified w').
  { unfold save_iff_modified, flags. intros w w' [= -> ->]. tauto. }
  assert (Hset : forall w' : World,
             flags w' = (true, true) -> save_iff_modified w').
  { unfold save_iff_modified, flags. intros w' [= -> ->]. tauto. }
  assert (Hclear : forall w' : World,
             flags w' = (false, false) -> save_iff_modified w').
  { unfold save_iff_modified, flags. intros w' [= -> ->]. tauto. }
  assert (Hedit : forall w : World, flags (exec on_text_changed w) = (true, true)).
  { intros w. unfold exec. now rewrite on_text_changed_eq. }
  assert (Hstep : forall (w : World) (ev : Event),
             save_iff_modified w -> save_iff_modified (step w ev)).
  { intros w ev Hw. destruct ev as [filename | | text | i | | ]; unfold step, slot.
    - destruct (open_file_flags w filename) as [Heq | Heq];
        [now apply (Hkeep w) | now apply Hset].
    - unfold exec, bind, gets.
      destruct (save_button (self w)); [|exact Hw].
      generalize (save_file_flags w). unfold exec.
      destruct (save_succeeds w); intros Heq;
        [now apply Hclear | now apply (Hkeep w)].
    - apply Hset. unfold exec, bind, modify. now rewrite on_text_changed_eq.
    - unfold exec. destruct (i <? length analysis_items)%nat; exact Hw.
    - apply (Hkeep w); [apply run_selected_analysis_flags | exact Hw].
    - apply (Hkeep w); [apply display_wireframe_flags | exact Hw]. }
  split; [exact Hinit|]. split; [exact Hedit|].
  split; [intros w Hs; rewrite save_file_flags; now rewrite Hs|].
  split; [intros w Hs; rewrite save_file_flags; now rewrite Hs|].
  split; [|split; [exact Hstep|]].
  - intros w filename content root tree_root Hname Hread Hparse Htree.
    unfold exec.
    rewrite (open_file_validated _ _ _ _ Hname Hread Hparse), Htree. cbv zeta.
    destruct (snd (xml_reader (fs w) filename (db (self w)))); [reflexivity|].
    destruct (results_path filename); reflexivity.
  - induction 1 as [db0 files | w ev Hw IH]; [apply Hinit | now apply Hstep].
Qed.

(** ** Running the static linear analysis *)

(** A run whose analysis succeeds ends with the report of that run in
    [log_text], as the widget renders it. *)
Lemma run_static_linear_after_success
  (w : World) (db' : DB Model) (log report : string) :
  engine (db (self w)) = EngineSuccess db' log report ->
  fst (run_static_linear w) = Returned tt
  /\ log_text (self (exec run_static_linear w)) = plain_text report.
Proof.
  intros Heng.
  unfold exec, run_static_linear, bind, run_analysis, gets, modify, py_open_read.
  rewrite Heng.
  cbn [fs with_fs with_self record_call self].
  rewrite lookup_insert. destruct (decide (results_file db' = "analysis.log"));
    rewrite ?lookup_insert_eq;
    cbn [fs with_fs with_self record_call self set_analysis_text set_db db snd fst];
    rewrite lookup_insert_eq; split; reflexivity.
Qed.

(** A run whose analysis fails goes on as if it had succeeded: the
    result of [run_analysis] is not looked at, and when a file is at the
    results path, left there by an earlier run, its text is put in
    [log_text] and the handler returns without any dialog. *)
Lemma run_static_linear_after_failure
  (w : World) (db' : DB Model) (log stale : string) (e : Exn) :
  engine (db (self w)) = EngineFailure db' log e ->
  results_file db' <> "analysis.log" ->
  fs w !! results_file db' = Some stale ->
  fst (run_static_linear w) = Returned tt
  /\ log_text (self (exec run_static_linear w)) = plain_text stale
  /\ analysis_text (self (exec run_static_linear w)) = plain_text log
  /\ shown (exec run_static_linear w) = shown w.
Proof.
  intros Heng Hpath Hstale.
  unfold exec, run_static_linear, bind, run_analysis, gets, modify, py_open_read.
  rewrite Heng.
  cbn [fs with_fs with_self record_call self].
  rewrite lookup_insert_eq.
  cbn [fs with_fs with_self record_call self set_analysis_text set_db db snd fst].
  rewrite lookup_insert_ne by congruence. rewrite Hstale.
  repeat split.
Qed.

(** * Further properties of the handlers *)

(** ** What [open_file] does and does not do *)

(** X1.  [open_file] never raises: whatever the file name, the files on
    disk, the parser and the loader do, the handler returns. *)
Theorem open_file_never_raises (filename : string) (w : World) :
  fst (open_file filename w) = Returned tt.
Proof. open_file_cases w filename; reflexivity. Qed.

(** X2.  [open_file] writes no file and leaves the analysis text, the
    log text and the selected analysis type as they are, however it
    ends. *)
Theorem open_file_writes_nothing (filename : string) (w : World) :
  fs (exec (open_file filename) w) = fs w
  /\ analysis_text (self (exec (open_file filename) w)) = analysis_text (self w)
  /\ log_text (self (exec (open_file filename) w)) = log_text (self w)
  /\ analysis_type_combo (self (exec (open_file filename) w))
     = analysis_type_combo (self w).
Proof. unfold exec. open_file_cases w filename; repeat split. Qed.

(** X3.  When the chosen path yields no text (no such file, no
    permission, bytes that do not decode), [open_file] reports the
    exception of [open] or [read] in an Open Error dialog and changes
    nothing: the window is as before and the loader is not called. *)
Theorem open_file_missing_file (filename : string) (w : World) :
  Py.truthy filename = true ->
  fs w !! filename = None ->
  shown (exec (open_file filename) w)
  = shown w ++ [critical "Open Error" (str (open_error filename))]
  /\ self (exec (open_file filename) w) = self w
  /\ db_calls (exec (open_file filename) w) = db_calls w.
Proof.
  intros Hname Hread. unfold exec.
  rewrite (open_file_unreadable _ _ Hname Hread). repeat split.
Qed.

(** X4.  Opening a file [stem.ext] with no dot in [stem] that is read
    and validated, that [ET.parse] parses and that the loader accepts,
    shows no dialog, calls the loader once, and leaves the window on that
    file: [current_file] is its path, the tree is the one of the root
    element that [ET.parse] returned, the text is what the editor makes
    of its content, and the database is the loaded one with
    [results_file] set to [stem_results.txt]. *)
Theorem open_file_success
  (w : World) (stem ext content : string) (root tree_root : Element)
  (db1 : DB Model) :
  Py.index "." stem = None ->
  fs w !! (stem +:+ String "." ext) = Some content ->
  fromstring content = Parsed root ->
  ET_parse (fs w) (stem +:+ String "." ext) = Returned tree_root ->
  xml_reader (fs w) (stem +:+ String "." ext) (db (self w)) = (db1, None) ->
  current_file (self (exec (open_file (stem +:+ String "." ext)) w))
  = stem +:+ String "." ext
  /\ tree_model (self (exec (open_file (stem +:+ String "." ext)) w))
     = MkTreeModel ["XML Structure"] [node_of tree_root]
  /\ xml_text (self (exec (open_file (stem +:+ String "." ext)) w))
     = plain_text content
  /\ db (self (exec (open_file (stem +:+ String "." ext)) w))
     = MkDB (model db1) (stem +:+ "_results.txt")
  /\ shown (exec (open_file (stem +:+ String "." ext)) w) = shown w
  /\ db_calls (exec (open_file (stem +:+ String "." ext)) w)
     = db_calls w ++ [call_xml_reader (stem +:+ String "." ext)].
Proof.
  intros Hstem Hread Hparse Htree Hload.
  assert (Hname : Py.truthy (stem +:+ String "." ext) = true)
    by (destruct stem; reflexivity).
  unfold exec.
  rewrite (open_file_validated _ _ _ _ Hname Hread Hparse), Htree. cbv zeta.
  rewrite Hload, (results_path_stem _ _ Hstem). cbn [fst snd].
  repeat split.
Qed.

(** ** What [save_file] does and does not do *)

(** X7.  [save_file] raises in one case only: the guard of line 341
    lets the call pass and [ET.fromstring] raises an exception that is
    not a [ParseError], which nothing in [save_file] catches; it then
    raises that exception and has changed nothing.  In every other case
    it returns: ill-formed text and a failed write are reported, not
    raised. *)
Theorem save_file_raises_only_from_parser (w : World) :
  fst (save_file w)
  = (if Py.truthy (current_file (self w)) && is_modified (self w)
     then match fromstring (xml_text (self w)) with
          | Fails e => Raised e
          | _ => Returned tt
          end
     else Returned tt)
  /\ match fromstring (xml_text (self w)) with
     | Fails _ => exec save_file w = w
     | _ => True
     end.
Proof.
  unfold exec. rewrite save_file_eq.
  destruct (Py.truthy (current_file (self w)));
    [|destruct (fromstring (xml_text (self w))); split; reflexivity || exact I].
  destruct (is_modified (self w));
    [|destruct (fromstring (xml_text (self w))); split; reflexivity || exact I].
  cbn [negb orb andb].
  destruct (fromstring (xml_text (self w))) as [root | msg | perr];
    [destruct (os_write (current_file (self w)) (xml_text (self w)))| |];
    split; reflexivity || exact I.
Qed.

(** X8.  [save_file] touches no file but the one at [current_file], and
    changes neither [current_file], nor the text, nor the tree, nor the
    database. *)
Theorem save_file_touches_only_current_file (w : World) :
  (forall p : string,
      p <> current_file (self w) -> fs (exec save_file w) !! p = fs w !! p)
  /\ current_file (self (exec save_file w)) = current_file (self w)
  /\ xml_text (self (exec save_file w)) = xml_text (self w)
  /\ tree_model (self (exec save_file w)) = tree_model (self w)
  /\ db (self (exec save_file w)) = db (self w)
  /\ db_calls (exec save_file w) = db_calls w.
Proof.
  unfold exec. save_file_cases w; repeat split; try reflexivity;
    intros p Hp; cbn [snd fs show with_self with_fs];
    now rewrite lookup_insert_ne.
Qed.

(** X9.  A [save_file] that succeeds leaves the text of the editor in
    the file at [current_file], marks the document unmodified and tells
    the user which file was saved. *)
Theorem save_file_success (w : World) :
  save_succeeds w = true ->
  fs (exec save_file w) !! current_file (self w) = Some (xml_text (self w))
  /\ xml_text_modified (self (exec save_file w)) = false
  /\ shown (exec save_file w)
     = shown w ++ [information "Save" ("Saved " +:+ current_file (self w))].
Proof.
  unfold save_succeeds, exec. intros Hs. rewrite save_file_eq.
  destruct (Py.truthy (current_file (self w))); [|discriminate].
  destruct (is_modified (self w)); [|discriminate].
  destruct (fromstring (xml_text (self w))); [|discriminate|discriminate].
  destruct (os_write (current_file (self w)) (xml_text (self w)));
    [|discriminate|discriminate].
  cbn [negb orb snd fs show with_self with_fs self shown].
  split; [apply lookup_insert_eq | split; reflexivity].
Qed.

(** X10.  A write that fails is reported in a Save Error dialog with
    the message of its exception, and [is_modified] and the Save button
    stay as they were, so that the edit is still marked as unsaved.
    When the open is refused no file is touched; when the write breaks
    off after the open has truncated the file, the file at
    [current_file] holds what was written so far. *)
Theorem save_file_write_failed (w : World) (root : Element) :
  Py.truthy (current_file (self w)) = true ->
  is_modified (self w) = true ->
  fromstring (xml_text (self w)) = Parsed root ->
  (forall e : Exn,
      os_write (current_file (self w)) (xml_text (self w)) = Refused e ->
      save_file w = (Returned tt, show (critical "Save Error" (str e)) w))
  /\ (forall (remains : string) (e : Exn),
        os_write (current_file (self w)) (xml_text (self w)) = Broken remains e ->
        save_file w
        = (Returned tt,
           show (critical "Save Error" (str e))
             (with_fs (fun files => <[current_file (self w) := remains]> files) w))).
Proof.
  intros Hfile Hmod Hparse. split.
  - intros e Hwrite. now rewrite save_file_eq, Hfile, Hmod, Hparse, Hwrite.
  - intros remains e Hwrite.
    now rewrite save_file_eq, Hfile, Hmod, Hparse, Hwrite.
Qed.

(** X11.  After a [save_file] that succeeds, a second [save_file] is
    stopped by the guard: it writes nothing and shows nothing. *)
Theorem save_file_twice (w : World) :
  save_succeeds w = true ->
  save_file (exec save_file w) = (Returned tt, exec save_file w).
Proof.
  unfold save_succeeds, exec. intros Hs. rewrite (save_file_eq w).
  destruct (Py.truthy (current_file (self w))); [|discriminate].
  destruct (is_modified (self w)); [|discriminate].
  destruct (fromstring (xml_text (self w))); [|discriminate|discriminate].
  destruct (os_write (current_file (self w)) (xml_text (self w)));
    [|discriminate|discriminate].
  cbn [negb orb snd]. rewrite save_file_eq.
  cbn [self show with_self with_fs is_modified set_save_button set_is_modified
       set_xml_text_modified current_file].
  now rewrite orb_true_r.
Qed.

(** X12.  Opening a file and saving at once writes back what the editor
    displays, not what was read: when the open gets to [setText] and the
    save succeeds, the file holds the plain text of the editor and every
    other file is as it was.  The disk is therefore unchanged when the
    editor displays the content verbatim, and changed when it does not
    (a no-break space comes back as a space). *)
Theorem open_then_save_writes_displayed_text
  (w : World) (filename content : string) (root tree_root shown_root : Element) :
  Py.truthy filename = true ->
  fs w !! filename = Some content ->
  fromstring content = Parsed root ->
  ET_parse (fs w) filename = Returned tree_root ->
  fromstring (plain_text content) = Parsed shown_root ->
  os_write filename (plain_text content) = Written ->
  fs (exec save_file (exec (open_file filename) w))
  = <[filename := plain_text content]> (fs w)
  /\ (plain_text content = content ->
      fs (exec save_file (exec (open_file filename) w)) = fs w).
Proof.
  intros Hname Hread Hparse Htree Hshown Hwrite.
  assert (Hfs : fs (exec save_file (exec (open_file filename) w))
                = <[filename := plain_text content]> (fs w)).
  { unfold exec.
    rewrite (open_file_validated _ _ _ _ Hname Hread Hparse), Htree. cbv zeta.
    destruct (xml_reader (fs w) filename (db (self w))) as [db1 [e|]]; cbn [fst snd];
      [|destruct (results_path filename)];
      cbn [snd]; rewrite save_file_eq;
      cbn [self show with_self with_fs record_call is_modified current_file xml_text
           opened_window set_save_button set_is_modified set_xml_text_modified
           set_xml_text set_current_file set_tree_model set_db fs];
      rewrite Hname, Hshown, Hwrite; reflexivity. }
  split; [exact Hfs|].
  intros Hsame. rewrite Hfs, Hsame. now apply insert_id.
Qed.

(** ** What the events of the window change *)

Ltac leaf :=
  cbv [ret modify run_branch run_static_nonlinear run_dynamic_linear
       run_dynamic_nonlinear run_frequency_domain run_buckling
       unknown_analysis_type QMessageBox_information QMessageBox_warning
       show record_call with_self with_fs shown fs self snd].

(** X16.  Handling one event never removes a dialog from what the user
    has been shown and adds at most one. *)
Theorem event_shows_at_most_one_dialog (w : World) (ev : Event) :
  exists ds : list Dialog,
    shown (step w ev) = shown w ++ ds /\ length ds <= 1.
Proof.
  step_cases w ev; leaf;
    first [ exists []; split; [now rewrite app_nil_r | simpl; lia]
          | eexists [_]; split; [reflexivity | simpl; lia] ].
Qed.

Lemma step_tree_model (w : World) (ev : Event) :
  (tree_model (self (step w ev)) = tree_model (self w)
   /\ current_file (self (step w ev)) = current_file (self w))
  \/ tree_model (self (step w ev)) = MkTreeModel ["XML Structure"] []
  \/ exists root,
      ET_parse (fs w) (current_file (self (step w ev))) = Returned root
      /\ tree_model (self (step w ev)) = MkTreeModel ["XML Structure"] [node_of root].
Proof.
  step_cases w ev;
    first [ left; split; reflexivity
          | right; left; reflexivity
          | right; right; eexists; split;
            [ match goal with
              | Ht : ET_parse _ _ = Returned _ |- _ => exact Ht
              end
            | reflexivity ] ].
Qed.

(** X15.  The tree model shows at most one document, that of the file
    named by [current_file].  An event leaves the tree and
    [current_file] as they are, or leaves the tree cleared (an open at
    which [ET.parse] raised), or leaves as its only row the node built
    from the root element that [ET.parse] returned for the file now named
    by [current_file].  So in every world the window can be in, the tree
    has the single header [XML Structure] and its rows are empty or are
    that one node, for the disk as it was at some time. *)
Theorem tree_shows_one_document (w : World) :
  (forall ev : Event,
      (tree_model (self (step w ev)) = tree_model (self w)
       /\ current_file (self (step w ev)) = current_file (self w))
      \/ tree_model (self (step w ev)) = MkTreeModel ["XML Structure"] []
      \/ exists root,
          ET_parse (fs w) (current_file (self (step w ev))) = Returned root
          /\ tree_model (self (step w ev))
             = MkTreeModel ["XML Structure"] [node_of root])
  /\ (reachable w ->
      header_labels (tree_model (self w)) = ["XML Structure"]
      /\ (root_rows (tree_model (self w)) = []
          \/ exists files root,
              ET_parse files (current_file (self w)) = Returned root
              /\ root_rows (tree_model (self w)) = [node_of root])).
Proof.
  split; [intros ev; apply step_tree_model|].
  induction 1 as [db0 files | w ev Hw IH].
  - split; [reflexivity | left; reflexivity].
  - destruct (step_tree_model w ev)
      as [(-> & ->) | [-> | (root & Hroot & ->)]].
    + exact IH.
    + split; [reflexivity | left; reflexivity].
    + split; [reflexivity | right; exists (fs w), root; now split].
Qed.

(** X17.  Which events change what.  Only Save and Run write files;
    only Open and Run change the database; only Open changes
    [current_file] and the tree; only Open and an edit change the XML
    text. *)
Theorem events_change_only_their_part (w : World) (ev : Event) :
  (ev <> save_clicked -> ev <> run_triggered -> fs (step w ev) = fs w)
  /\ ((forall f, ev <> open_triggered f) -> ev <> run_triggered ->
      db (self (step w ev)) = db (self w))
  /\ ((forall f, ev <> open_triggered f) ->
      current_file (self (step w ev)) = current_file (self w)
      /\ tree_model (self (step w ev)) = tree_model (self w))
  /\ ((forall f, ev <> open_triggered f) -> (forall t, ev <> text_edited t) ->
      xml_text (self (step w ev)) = xml_text (self w)).
Proof.
  assert (Hfs : ev <> save_clicked -> ev <> run_triggered ->
                fs (step w ev) = fs w).
  { intros Hsave Hrun. step_cases w ev; congruence || reflexivity. }
  assert (Hdb : (forall f, ev <> open_triggered f) -> ev <> run_triggered ->
                db (self (step w ev)) = db (self w)).
  { intros Hopen Hrun.
    step_cases w ev;
      congruence || reflexivity || exact (False_ind _ (Hopen _ eq_refl)). }
  assert (Hfile : (forall f, ev <> open_triggered f) ->
                  current_file (self (step w ev)) = current_file (self w)).
  { intros Hopen.
    step_cases w ev; reflexivity || exact (False_ind _ (Hopen _ eq_refl)). }
  assert (Htree : (forall f, ev <> open_triggered f) ->
                  tree_model (self (step w ev)) = tree_model (self w)).
  { intros Hopen.
    step_cases w ev; reflexivity || exact (False_ind _ (Hopen _ eq_refl)). }
  assert (Htext : (forall f, ev <> open_triggered f) ->
                  (forall t, ev <> text_edited t) ->
                  xml_text (self (step w ev)) = xml_text (self w)).
  { intros Hopen Hedit.
    step_cases w ev;
      reflexivity || exact (False_ind _ (Hopen _ eq_refl))
      || exact (False_ind _ (Hedit _ eq_refl)). }
  exact (conj Hfs (conj Hdb (conj (fun Hopen => conj (Hfile Hopen) (Htree Hopen)) Htext))).
Qed.

Lemma prefix_append (s t : string) : String.prefix s (s +:+ t) = true.
Proof.
  induction s as [|a s IH]; simpl; [now destruct t|].
  destruct (ascii_dec a a); [exact IH | congruence].
Qed.

(** X18.  [display_wireframe] keeps the analysis text it finds and adds
    to its end, calls [plot_wire3d] once, and shows no dialog; an
    exception of the plot is not caught: the handler raises it. *)
Theorem display_wireframe_appends (w : World) :
  String.prefix (analysis_text (self w))
                (analysis_text (self (exec display_wireframe w))) = true
  /\ db_calls (exec display_wireframe w) = db_calls w ++ [call_plot_wire3d]
  /\ shown (exec display_wireframe w) = shown w
  /\ fst (display_wireframe w)
     = match plot_wire3d (db (self w)) with
       | None => Returned tt
       | Some e => Raised e
       end.
Proof.
  assert (Hprefix : forall text,
             String.prefix (analysis_text (self w))
               (QTextEdit_append (analysis_text (self w)) text) = true).
  { intros text. unfold QTextEdit_append.
    destruct (analysis_text (self w)) as [|a s] eqn:Hs; [now destruct text|].
    apply prefix_append. }
  unfold exec, display_wireframe, bind, modify.
  cbn [with_self self db set_analysis_text].
  destruct (plot_wire3d (db (self w))); repeat split; apply Hprefix.
Qed.

Lemma select_branch_of_item (t : string) :
  In t analysis_items -> select_branch t <> unknown_type.
Proof.
  cbn. intros [<- | [<- | [<- | [<- | [<- | [<- | []]]]]]]; discriminate.
Qed.

(** X19.  The warning [Unknown analysis type selected.] is never shown:
    in no world the window can be in has the user seen a warning dialog,
    because the combo box only ever holds one of its six items. *)
Theorem no_warning_is_ever_shown (w : World) :
  reachable w ->
  forall title body : string, ~ In (warning title body) (shown w).
Proof.
  induction 1 as [db0 files | w ev Hw IH]; intros title body; [intros []|].
  specialize (IH title body).
  pose proof (select_branch_of_item _ (currentText_is_item w Hw)) as Hbranch.
  step_cases w ev; leaf; try exact IH; try congruence;
    rewrite in_app_iff; intros [Hin | [Heq | []]];
    solve [ now apply IH | discriminate ].
Qed.

End Properties.

(** * The properties at the sample environment *)

(** C2.  For the model [/home/j.doe/beam.xml] the code derives the
    results path [/home/j_results.txt]: it cuts the path at its first
    dot, which is in the directory name.  Replacing the extension, as the
    specification words it, gives [/home/j.doe/beam_results.txt]. *)
Theorem results_path_cuts_at_first_dot :
  results_path "/home/j.doe/beam.xml" = Returned "/home/j_results.txt"
  /\ results_file
       (db (self (exec (open_file "/home/j.doe/beam.xml") sample_start)))
     = "/home/j_results.txt"
  /\ shown (exec (open_file "/home/j.doe/beam.xml") sample_start) = []
  /\ replace_extension "/home/j.doe/beam.xml" = "/home/j.doe/beam_results.txt".
Proof. repeat split; vm_compute; reflexivity. Qed.

Lemma not_implemented_is_reported_witness :
  (In "Static Nonlinear Analysis" (tl analysis_items)
   /\ currentText (self (step sample_start (type_selected 1)))
      = "Static Nonlinear Analysis"
   /\ run_selected_analysis (step sample_start (type_selected 1))
      = (Returned tt,
         show (information "Not Implemented"
                 "Static Nonlinear Analysis is not yet implemented.")
              (step sample_start (type_selected 1))))
  /\ (currentText (self sample_opened) = "Static Linear Analysis"
      /\ db_calls (exec run_selected_analysis sample_opened)
         = db_calls sample_opened ++ [call_run_analysis "analysis.log"])
  /\ (currentText (self (step sample_start (type_selected 5)))
      <> "Static Linear Analysis"
      /\ db_calls (exec run_selected_analysis (step sample_start (type_selected 5)))
         = db_calls (step sample_start (type_selected 5))).
Proof.
  split; [|split].
  - split; [simpl; tauto|]. split; [reflexivity|].
    apply (proj1 (not_implemented_is_reported (step sample_start (type_selected 1)))
             "Static Nonlinear Analysis");
      [simpl; tauto | reflexivity].
  - split; [reflexivity|].
    apply (proj1 (proj2 (not_implemented_is_reported sample_opened))).
    reflexivity.
  - split; [vm_compute; discriminate|].
    apply (proj2 (proj2 (not_implemented_is_reported
                           (step sample_start (type_selected 5))))).
    vm_compute; discriminate.
Defined.

Lemma unknown_type_unreachable_witness :
  In (currentText (self sample_start)) analysis_items
  /\ select_branch (currentText (self sample_start)) <> unknown_type.
Proof.
  split; [simpl; tauto|].
  apply (unknown_type_unreachable sample_start). simpl; tauto.
Defined.

Lemma open_file_invalid_xml_witness :
  Py.truthy "/srv/models/notes.xml" = true
  /\ fs sample_start !! "/srv/models/notes.xml" = Some "<frame"
  /\ fromstring "<frame" = NotWellFormed "unclosed token: line 1, column 0"
  /\ db (self (exec (open_file "/srv/models/notes.xml") sample_start))
     = db (self sample_start).
Proof.
  split; [reflexivity|]. split; [reflexivity|]. split; [reflexivity|].
  apply (open_file_invalid_xml sample_start "/srv/models/notes.xml" "<frame"
           "unclosed token: line 1, column 0"); reflexivity.
Defined.

(** C6, as the claim states it, fails: opening the well-formed model
    [/srv/models/portal], whose name has no dot, reports an Open Error
    after [current_file], the tree, the text and the database have been
    assigned, and leaves the [results_file] of the earlier model. *)
Lemma open_file_commits_partially :
  fails_after_validation "/srv/models/portal" sample_start
  /\ ~ open_all_or_none "/srv/models/portal" sample_start.
Proof.
  split.
  - split; [reflexivity|]. split.
    + exists "<frame/>", (Elem "frame" None []). split; reflexivity.
    + exists "substring not found". reflexivity.
  - intros [(Hfile & _) | (content & root & path & _ & _ & Hpath & _)].
    + vm_compute in Hfile. discriminate.
    + vm_compute in Hpath. discriminate.
Qed.

Lemma open_file_failure_keeps_updates_witness :
  (fails_after_validation "/srv/models/portal" sample_start
   /\ current_file (self (exec (open_file "/srv/models/portal") sample_start))
      = "/srv/models/portal"
   /\ results_file (db (self (exec (open_file "/srv/models/portal") sample_start)))
      = "/srv/models/old_results.txt")
  /\ (fails_after_validation "/srv/models/latin.xml" sample_latin_start
      /\ current_file
           (self (exec (open_file "/srv/models/latin.xml") sample_latin_start))
         = ""
      /\ is_modified
           (self (exec (open_file "/srv/models/latin.xml") sample_latin_start))
         = false).
Proof.
  assert (Hportal : fails_after_validation "/srv/models/portal" sample_start).
  { split; [reflexivity|]. split.
    - exists "<frame/>", (Elem "frame" None []). split; reflexivity.
    - exists "substring not found". reflexivity. }
  assert (Hlatin : fails_after_validation "/srv/models/latin.xml" sample_latin_start).
  { split; [reflexivity|]. split.
    - exists sample_latin,
        (Elem "note" (Some (String (ascii_of_nat 233) "")) []).
      split; reflexivity.
    - exists "not well-formed (invalid token): line 1, column 47". reflexivity. }
  split.
  - split; [exact Hportal|].
    destruct (open_file_failure_keeps_updates sample_start "/srv/models/portal" Hportal)
      as (content & _ & [(e & Hraised & _)
                        | (tree_root & _ & Hfile & _ & _ & _ & Hdb & _)]).
    + vm_compute in Hraised. discriminate.
    + split; [exact Hfile|]. rewrite Hdb. reflexivity.
  - split; [exact Hlatin|].
    destruct (open_file_failure_keeps_updates sample_latin_start
                "/srv/models/latin.xml" Hlatin)
      as (content & _ & [(e & _ & Hself & _) | (tree_root & Hreturned & _)]).
    + rewrite Hself. split; reflexivity.
    + vm_compute in Hreturned. discriminate.
Defined.

Lemma open_file_marks_modified_witness :
  opens_successfully "/srv/models/truss.xml" sample_start
  /\ is_modified (self sample_start) = false
  /\ is_modified (self sample_opened) = true
  /\ save_button (self sample_opened) = true.
Proof.
  assert (Hopens : opens_successfully "/srv/models/truss.xml" sample_start).
  { split; [reflexivity|]. split.
    - exists "<truss><node>1 0 0</node></truss>",
        (Elem "truss" None [Elem "node" (Some "1 0 0") []]).
      split; reflexivity.
    - split; [eexists; reflexivity|]. split; [reflexivity|].
      eexists; reflexivity. }
  split; [exact Hopens|]. split; [reflexivity|].
  destruct (open_file_marks_modified sample_start "/srv/models/truss.xml" Hopens)
    as (Hmod & Hsave & _).
  split; [exact Hmod | exact Hsave].
Defined.

(** C9, as the claim states it, fails: in the window where the user has
    typed ill-formed text with no file open, the Save button is enabled,
    and [save_file] returns at its guard without reporting anything. *)
Lemma save_file_silent_without_file :
  reachable sample_typed
  /\ save_button (self sample_typed) = true
  /\ is_modified (self sample_typed) = true
  /\ fromstring (xml_text (self sample_typed))
     = NotWellFormed "unclosed token: line 1, column 0"
  /\ ~ save_rejected sample_typed.
Proof.
  split; [apply reachable_step, reachable_init|].
  split; [reflexivity|]. split; [reflexivity|]. split; [reflexivity|].
  intros (_ & (msg & Hshown) & _).
  vm_compute in Hshown. discriminate.
Qed.

Lemma save_file_invalid_xml_witness :
  fromstring (xml_text (self sample_broken))
  = NotWellFormed "unclosed token: line 1, column 0"
  /\ Py.truthy (current_file (self sample_broken)) = true
  /\ is_modified (self sample_broken) = true
  /\ save_rejected sample_broken.
Proof.
  split; [reflexivity|]. split; [reflexivity|]. split; [reflexivity|].
  apply (proj1 (proj2 (proj2 (save_file_invalid_xml sample_broken
                                "unclosed token: line 1, column 0" eq_refl))));
    reflexivity.
Defined.

Lemma save_button_tracks_is_modified_witness :
  save_succeeds (step sample_opened (text_edited "<frame/>")) = true
  /\ flags (exec save_file (step sample_opened (text_edited "<frame/>")))
     = (false, false)
  /\ save_succeeds sample_broken = false
  /\ flags (exec save_file sample_broken) = flags sample_broken
  /\ flags (exec (open_file "/srv/models/truss.xml") sample_start) = (true, true)
  /\ reachable sample_broken
  /\ save_iff_modified sample_broken.
Proof.
  split; [reflexivity|].
  split; [apply (proj1 (proj2 (proj2 save_button_tracks_is_modified)));
          reflexivity|].
  split; [reflexivity|].
  split; [apply (proj1 (proj2 (proj2 (proj2 save_button_tracks_is_modified))));
          reflexivity|].
  split;
    [apply (proj1 (proj2 (proj2 (proj2 (proj2 save_button_tracks_is_modified))))
              sample_start "/srv/models/truss.xml"
              "<truss><node>1 0 0</node></truss>"
              (Elem "truss" None [Elem "node" (Some "1 0 0") []])
              (Elem "truss" None [Elem "node" (Some "1 0 0") []]));
     reflexivity|].
  assert (Hreach : reachable sample_broken)
    by (repeat apply reachable_step; apply reachable_init).
  split; [exact Hreach|].
  apply (proj2 (proj2 (proj2 (proj2 (proj2 (proj2 save_button_tracks_is_modified)))))).
  exact Hreach.
Defined.

(** C5.  After the truss has been analysed and its report shown, the
    user replaces the model by a frame without nodes, saves, opens it
    again and runs the analysis.  This run fails and writes no report;
    yet [run_static_linear], which does not look at what [run_analysis]
    returns, reads the file that the first run left at the results path
    and returns with that report in the log text, no error being
    shown. *)
Theorem run_static_linear_presents_stale_report :
  reachable sample_reopened
  /\ log_text (self sample_first_run) = "displacements of the truss"
  /\ engine (db (self sample_reopened))
     = EngineFailure (db (self sample_reopened)) "solver failed"
         (OtherError "singular system")
  /\ fst (run_selected_analysis sample_reopened) = Returned tt
  /\ log_text (self (exec run_selected_analysis sample_reopened))
     = "displacements of the truss"
  /\ analysis_text (self (exec run_selected_analysis sample_reopened))
     = "solver failed"
  /\ shown (exec run_selected_analysis sample_reopened) = shown sample_reopened.
Proof.
  split; [repeat apply reachable_step; apply reachable_init|].
  repeat split; vm_compute; reflexivity.
Qed.

(** * Further properties of the shell *)

(** ** Splitting text into rows *)

Lemma split_not_nil (sep : ascii) (s : string) : Py.split sep s <> [].
Proof.
  destruct s as [|a s]; simpl; [discriminate|].
  destruct (Ascii.eqb a sep); [discriminate|].
  destruct (Py.split sep s); discriminate.
Qed.

Lemma str_join_split (sep : ascii) (s : string) :
  str_join sep (Py.split sep s) = s.
Proof.
  induction s as [|a s IH]; [reflexivity|].
  simpl. destruct (Ascii.eqb_spec a sep) as [-> | Hne].
  - pose proof (split_not_nil sep s) as Hnil.
    destruct (Py.split sep s) as [|h t]; [congruence|].
    change (str_join sep (EmptyString :: h :: t))
      with (String sep (str_join sep (h :: t))).
    now rewrite IH.
  - pose proof (split_not_nil sep s) as Hnil.
    destruct (Py.split sep s) as [|h t]; [congruence|].
    destruct t as [|h' t].
    + simpl in IH |- *. now rewrite IH.
    + change (str_join sep (String a h :: h' :: t))
        with (String a (str_join sep (h :: h' :: t))).
      now rewrite IH.
Qed.

Lemma split_lines_have_no_sep (sep : ascii) (s : string) :
  Forall (fun line => Py.index sep line = None) (Py.split sep s).
Proof.
  induction s as [|a s IH]; simpl.
  - repeat constructor.
  - destruct (Ascii.eqb a sep) eqn:Ha.
    + constructor; [reflexivity | exact IH].
    + destruct (Py.split sep s) as [|h t]; [repeat constructor; simpl; now rewrite Ha|].
      inversion IH as [|? ? Hh Ht]; subst.
      constructor; [|exact Ht]. simpl. now rewrite Ha, Hh.
Qed.

(** X13.  The rows that [insert_tree_items] appends for the text of an
    element are the lines of the stripped text: joined by line feeds they
    give the stripped text back, and no row contains a line feed.  An
    element whose text is absent, empty or blank gets no text row. *)
Theorem text_rows_are_the_lines (text : option string) :
  (forall t : string,
      text = Some t -> Py.strip t <> EmptyString ->
      str_join Py.LF (map item_text (text_rows text)) = Py.strip t
      /\ text_rows text <> [])
  /\ Forall (fun row => Py.index Py.LF (item_text row) = None
                        /\ row = MkItem (item_text row) [])
            (text_rows text)
  /\ ((text = None \/ exists t, text = Some t /\ Py.strip t = EmptyString) ->
      text_rows text = []).
Proof.
  split; [|split].
  - intros t -> Hstrip. unfold text_rows.
    assert (Ht : Py.truthy t = true).
    { destruct t; [now elim Hstrip|reflexivity]. }
    assert (Hs : Py.truthy (Py.strip t) = true).
    { destruct (Py.strip t); [now elim Hstrip|reflexivity]. }
    rewrite Ht, Hs. cbn [andb]. rewrite map_map. cbn [item_text].
    rewrite map_id. split; [apply str_join_split|].
    intros Hnil. apply map_eq_nil in Hnil. now apply split_not_nil in Hnil.
  - unfold text_rows. destruct text as [t|]; [|constructor].
    destruct (Py.truthy t && Py.truthy (Py.strip t)); [|constructor].
    generalize (split_lines_have_no_sep Py.LF (Py.strip t)).
    generalize (Py.split Py.LF (Py.strip t)). intros lines Hlines.
    induction Hlines as [|line lines Hline _ IH]; cbn [map]; constructor;
      [split; [exact Hline | reflexivity] | exact IH].
  - intros [-> | (t & -> & Hstrip)]; [reflexivity|].
    unfold text_rows. rewrite Hstrip. cbn. now rewrite andb_false_r.
Qed.

Lemma text_rows_are_the_lines_witness :
  Py.strip (" 1 0 0" +:+ String Py.LF "2 4 0 ") <> EmptyString
  /\ str_join Py.LF
       (map item_text (text_rows (Some (" 1 0 0" +:+ String Py.LF "2 4 0 "))))
     = "1 0 0" +:+ String Py.LF "2 4 0"
  /\ text_rows (Some "  ") = [].
Proof.
  split; [vm_compute; discriminate|]. split.
  - apply (proj1 (text_rows_are_the_lines
                    (Some (" 1 0 0" +:+ String Py.LF "2 4 0 ")))
             (" 1 0 0" +:+ String Py.LF "2 4 0 ") eq_refl).
    vm_compute; discriminate.
  - apply (proj2 (proj2 (text_rows_are_the_lines (Some "  ")))).
    right. exists "  ". split; reflexivity.
Defined.

(** ** The size of the tree *)

Lemma Element_nested_ind (P : Element -> Prop) :
  (forall tag text children, Forall P children -> P (Elem tag text children)) ->
  forall element, P element.
Proof.
  intros Hstep. fix IH 1. intros [tag text children]. apply Hstep.
  induction children as [|child children IHc]; constructor; [apply IH | exact IHc].
Qed.

Lemma list_sum_leaves (lines : list string) :
  list_sum (map count_items (map (fun line => MkItem line []) lines)) = length lines.
Proof. induction lines as [|l lines IH]; simpl; [reflexivity | now rewrite IH]. Qed.

Lemma text_rows_count (text : option string) :
  list_sum (map count_items (text_rows text)) = length (text_rows text).
Proof.
  unfold text_rows. destruct text as [t|]; [|reflexivity].
  destruct (Py.truthy t && Py.truthy (Py.strip t)); [|reflexivity].
  now rewrite list_sum_leaves, length_map.
Qed.

(** X14.  The tree that [insert_tree_items] builds for a document has
    one item for every element and one for every line of non-blank text,
    and nothing else; [insert_tree_items] appends it to the rows of the
    parent, which it keeps. *)
Theorem tree_has_an_item_per_element_and_line
  (parent_rows : list Item) (element : Element) :
  count_items (node_of element) = count_elements element + count_text_lines element
  /\ insert_tree_items parent_rows element = parent_rows ++ [node_of element]
  /\ list_sum (map count_items (insert_tree_items parent_rows element))
     = list_sum (map count_items parent_rows)
       + count_elements element + count_text_lines element.
Proof.
  assert (Hnode : forall e, count_items (node_of e)
                            = count_elements e + count_text_lines e).
  { induction e as [tag text children IH] using Element_nested_ind.
    cbn [node_of count_items count_elements count_text_lines].
    rewrite map_app, list_sum_app, text_rows_count, map_map.
    assert (Hsum : list_sum (map (fun x => count_items (node_of x)) children)
                   = list_sum (map count_elements children)
                     + list_sum (map count_text_lines children)).
    { induction IH as [|child children Hc _ IHs]; [reflexivity|].
      cbn [map list_sum fold_right]. fold (list_sum (map (fun x => count_items (node_of x)) children)).
      fold (list_sum (map count_elements children)).
      fold (list_sum (map count_text_lines children)).
      rewrite Hc, IHs. lia. }
    rewrite Hsum. lia. }
  split; [apply Hnode|]. split; [reflexivity|].
  unfold insert_tree_items. rewrite map_app, list_sum_app.
  cbn [map list_sum fold_right]. rewrite Hnode. lia.
Qed.

(** ** The derived results path *)

Lemma index_cuts (c : ascii) (s : string) (i : nat) :
  Py.index c s = Some i ->
  exists rest,
    s = Py.slice_to i s +:+ String c rest
    /\ Py.index c (Py.slice_to i s) = None.
Proof.
  unfold Py.slice_to. revert i.
  induction s as [|a s IH]; intros i Hi; [discriminate|].
  simpl in Hi. destruct (Ascii.eqb_spec a c) as [-> | Hne].
  - injection Hi as <-. exists s. split; reflexivity.
  - destruct (Py.index c s) as [j|] eqn:Hj; [|discriminate].
    injection Hi as <-. destruct (IH j eq_refl) as (rest & Hs & Hnone).
    exists rest. split.
    + change (String a s = String a (substring 0 j s +:+ String c rest)).
      now rewrite <- Hs.
    + change (Py.index c (String a (substring 0 j s)) = None).
      apply Ascii.eqb_neq in Hne. simpl. now rewrite Hne, Hnone.
Qed.

(** What a derived path is made of. *)
Lemma results_path_cut (filename p : string) :
  results_path filename = Returned p ->
  exists stem rest,
    filename = stem +:+ String "." rest
    /\ Py.index "." stem = None
    /\ p = stem +:+ "_results.txt".
Proof.
  unfold results_path.
  destruct (Py.index "." filename) as [i|] eqn:Hi; [|discriminate].
  intros [= <-]. destruct (index_cuts _ _ _ Hi) as (rest & Hs & Hnone).
  exists (Py.slice_to i filename), rest. now repeat split.
Qed.

Lemma append_cancel (stem a b : string) : stem +:+ a = stem +:+ b -> a = b.
Proof.
  induction stem as [|x stem IH]; simpl; [easy|].
  intros Heq. injection Heq as Heq. now apply IH.
Qed.

Lemma append_length (a b : string) :
  String.length (a +:+ b) = String.length a + String.length b.
Proof. induction a as [|x a IH]; simpl; [reflexivity | now rewrite IH]. Qed.

(** X5.  The results path is derived exactly for the file names that
    contain a dot: the name is cut before its first dot and the suffix
    [_results.txt] is put there.  For a name without a dot the derivation
    raises [ValueError], and for no other name. *)
Theorem results_path_characterised (filename : string) :
  (forall p : string,
      results_path filename = Returned p <->
      exists stem rest,
        filename = stem +:+ String "." rest
        /\ Py.index "." stem = None
        /\ p = stem +:+ "_results.txt")
  /\ (forall e : Exn,
        results_path filename = Raised e <->
        Py.index "." filename = None /\ e = ValueError "substring not found").
Proof.
  split.
  - intros p. split.
    + apply results_path_cut.
    + intros (stem & rest & -> & Hstem & ->). now apply results_path_stem.
  - intros e. unfold results_path.
    destruct (Py.index "." filename) as [i|]; split;
      try discriminate; try (intros [Habs _]; discriminate).
    + now intros [= <-].
    + now intros [_ ->].
Qed.

(** X6.  A derived results path differs from the path of the model it
    is derived from, and from the log file [analysis.log] of the static
    linear run: writing the report overwrites neither. *)
Theorem results_path_is_fresh (filename p : string) :
  results_path filename = Returned p ->
  p <> filename /\ p <> "analysis.log".
Proof.
  intros Hp.
  apply results_path_cut in Hp.
  destruct Hp as (stem & rest & -> & _ & ->). split.
  - intros Heq. apply append_cancel in Heq. discriminate.
  - intros Heq. pose proof (f_equal String.length Heq) as Hlen.
    rewrite append_length in Hlen. cbn in Hlen.
    destruct stem; [discriminate | cbn in Hlen; lia].
Qed.

Lemma results_path_is_fresh_witness :
  results_path "/srv/models/truss.xml" = Returned "/srv/models/truss_results.txt"
  /\ "/srv/models/truss_results.txt" <> "/srv/models/truss.xml".
Proof.
  split; [reflexivity|].
  apply (results_path_is_fresh "/srv/models/truss.xml"). reflexivity.
Defined.


(** * The further properties at the sample environment *)

Lemma open_file_missing_file_witness :
  Py.truthy "/srv/models/none.xml" = true
  /\ fs sample_start !! "/srv/models/none.xml" = None
  /\ self (exec (open_file "/srv/models/none.xml") sample_start) = self sample_start.
Proof.
  split; [reflexivity|]. split; [reflexivity|].
  apply (open_file_missing_file "/srv/models/none.xml" sample_start); reflexivity.
Defined.

Lemma open_file_success_witness :
  Py.index "." "/srv/models/truss" = None
  /\ fs sample_start !! "/srv/models/truss.xml"
     = Some "<truss><node>1 0 0</node></truss>"
  /\ db (self (exec (open_file "/srv/models/truss.xml") sample_start))
     = MkDB "<truss><node>1 0 0</node></truss>" "/srv/models/truss_results.txt".
Proof.
  split; [reflexivity|]. split; [reflexivity|].
  apply (open_file_success sample_start "/srv/models/truss" "xml"
           "<truss><node>1 0 0</node></truss>"
           (Elem "truss" None [Elem "node" (Some "1 0 0") []])
           (Elem "truss" None [Elem "node" (Some "1 0 0") []])
           (MkDB "<truss><node>1 0 0</node></truss>" "/srv/models/old_results.txt"));
    reflexivity.
Defined.

Lemma results_path_characterised_witness :
  results_path "/srv/models/truss.xml" = Returned "/srv/models/truss_results.txt"
  /\ exists stem rest,
      "/srv/models/truss.xml" = stem +:+ String "." rest
      /\ Py.index "." stem = None
      /\ "/srv/models/truss_results.txt" = stem +:+ "_results.txt".
Proof.
  split; [reflexivity|].
  apply (proj1 (proj1 (results_path_characterised "/srv/models/truss.xml")
                  "/srv/models/truss_results.txt")).
  reflexivity.
Defined.

Lemma save_file_touches_only_current_file_witness :
  "/srv/models/notes.xml" <> current_file (self sample_edited)
  /\ fs (exec save_file sample_edited) !! "/srv/models/notes.xml"
     = fs sample_edited !! "/srv/models/notes.xml".
Proof.
  split; [vm_compute; discriminate|].
  apply (proj1 (save_file_touches_only_current_file sample_edited)).
  vm_compute; discriminate.
Defined.

Lemma save_file_success_witness :
  save_succeeds sample_edited = true
  /\ fs (exec save_file sample_edited) !! "/srv/models/truss.xml" = Some "<frame/>".
Proof.
  split; [reflexivity|].
  apply (proj1 (save_file_success sample_edited eq_refl)).
Defined.

Lemma save_file_write_failed_witness :
  (Py.truthy (current_file (self sample_readonly)) = true
   /\ is_modified (self sample_readonly) = true
   /\ save_file sample_readonly
      = (Returned tt,
         show (critical "Save Error"
                 "[Errno 13] Permission denied: '/readonly/frame.xml'")
              sample_readonly))
  /\ (Py.truthy (current_file (self sample_full_disk)) = true
      /\ is_modified (self sample_full_disk) = true
      /\ fs (exec save_file sample_full_disk) !! "/full/frame.xml" = Some "").
Proof.
  split.
  - split; [reflexivity|]. split; [reflexivity|].
    apply (proj1 (save_file_write_failed sample_readonly (Elem "frame" None [])
                    eq_refl eq_refl eq_refl)
             (OSError "[Errno 13] Permission denied: '/readonly/frame.xml'")).
    reflexivity.
  - split; [reflexivity|]. split; [reflexivity|].
    unfold exec.
    rewrite (proj2 (save_file_write_failed sample_full_disk (Elem "frame" None [])
                      eq_refl eq_refl eq_refl)
               "" (OSError "[Errno 28] No space left on device") eq_refl).
    reflexivity.
Defined.

Lemma save_file_twice_witness :
  save_succeeds sample_edited = true
  /\ save_file (exec save_file sample_edited)
     = (Returned tt, exec save_file sample_edited).
Proof.
  split; [reflexivity|].
  apply (save_file_twice sample_edited). reflexivity.
Defined.

Lemma open_then_save_writes_displayed_text_witness :
  (fs sample_start !! "/srv/models/truss.xml"
   = Some "<truss><node>1 0 0</node></truss>"
   /\ fs (exec save_file (exec (open_file "/srv/models/truss.xml") sample_start))
      = fs sample_start)
  /\ (fs sample_nbsp_start !! "/srv/models/nbsp.xml" = Some sample_nbsp
      /\ fs (exec save_file (exec (open_file "/srv/models/nbsp.xml") sample_nbsp_start))
         = <["/srv/models/nbsp.xml" := "<note> </note>"]> (fs sample_nbsp_start)).
Proof.
  split.
  - split; [reflexivity|].
    apply (proj2 (open_then_save_writes_displayed_text sample_start
                    "/srv/models/truss.xml" "<truss><node>1 0 0</node></truss>"
                    (Elem "truss" None [Elem "node" (Some "1 0 0") []])
                    (Elem "truss" None [Elem "node" (Some "1 0 0") []])
                    (Elem "truss" None [Elem "node" (Some "1 0 0") []])
                    eq_refl eq_refl eq_refl eq_refl eq_refl eq_refl)).
    reflexivity.
  - split; [reflexivity|].
    apply (proj1 (open_then_save_writes_displayed_text sample_nbsp_start
                    "/srv/models/nbsp.xml" sample_nbsp
                    (Elem "note" (Some (String (ascii_of_nat 160) "")) [])
                    (Elem "note" (Some (String (ascii_of_nat 160) "")) [])
                    (Elem "note" (Some " ") [])
                    eq_refl eq_refl eq_refl eq_refl eq_refl eq_refl)).
Defined.

Lemma tree_shows_one_document_witness :
  reachable sample_broken
  /\ header_labels (tree_model (self sample_broken)) = ["XML Structure"].
Proof.
  assert (Hreach : reachable sample_broken)
    by (repeat apply reachable_step; apply reachable_init).
  split; [exact Hreach|].
  apply (proj2 (tree_shows_one_document sample_broken) Hreach).
Defined.

Lemma events_change_only_their_part_witness :
  text_edited "<truss" <> save_clicked
  /\ text_edited "<truss" <> run_triggered
  /\ fs (step sample_opened (text_edited "<truss")) = fs sample_opened.
Proof.
  split; [discriminate|]. split; [discriminate|].
  apply (proj1 (events_change_only_their_part sample_opened (text_edited "<truss")));
    discriminate.
Defined.

Lemma no_warning_is_ever_shown_witness :
  reachable (step (step sample_start (type_selected 5)) run_triggered)
  /\ ~ In (warning "Analysis" "Unknown analysis type selected.")
          (shown (step (step sample_start (type_selected 5)) run_triggered)).
Proof.
  assert (Hreach : reachable (step (step sample_start (type_selected 5)) run_triggered))
    by (repeat apply reachable_step; apply reachable_init).
  split; [exact Hreach|].
  apply (no_warning_is_ever_shown _ Hreach).
Defined.
